(** * tgtg-python: the session life cycle of [TgtgClient]

    A shallow embedding of [tgtg/__init__.py]: the client object is a
    record, every method is a function in a small state-and-exception
    monad that threads the client and the outside world (wall clock,
    the remote server's scripted answers, the log of observable calls).
    A Python exception leaves every assignment made before it in place,
    so the monad returns the client also when it raises. *)

From Stdlib Require Import ZArith List String Ascii Bool Lia DecimalString.
Import ListNotations.

Local Open Scope Z_scope.
#[local] Set Warnings "-register-all".

(** ** Python values *)

(** The values that travel through the client: JSON documents, keyword
    arguments, tokens.  A float is kept as the dyadic number [m * 2^e]
    (infinities and NaN never reach a truth test in this module).  A dict
    is an association list in insertion order, looked up by first match. *)
Inductive value : Type :=
| VNone
| VBool (b : bool)
| VInt (z : Z)
| VFloat (m e : Z)
| VStr (s : string)
| VList (l : list value)
| VDict (d : list (string * value)).

(** Python's truth test, [bool(v)]. *)
Definition truthy (v : value) : bool :=
  match v with
  | VNone => false
  | VBool b => b
  | VInt z => negb (z =? 0)
  | VFloat m _ => negb (m =? 0)
  | VStr s => negb (String.eqb s "")
  | VList l => match l with [] => false | _ :: _ => true end
  | VDict d => match d with [] => false | _ :: _ => true end
  end.

(** [a and b] on values: [a] when [a] is false, else [b]. *)
Definition py_and (a b : value) : value := if truthy a then b else a.

Inductive exn : Type :=
| ValueError (msg : string)
| DeprecationWarning (msg : string)
| KeyError (key : string)
| TypeError
| JSONDecodeError
| RequestException
| TgtgAPIError (status : Z) (content : string)
| TgtgLoginError (status : Z) (content : string).

Inductive result (A : Type) : Type :=
| Ok (a : A)
| Raise (e : exn).
Arguments Ok {A} a.
Arguments Raise {A} e.

Fixpoint dict_get (k : string) (d : list (string * value)) : option value :=
  match d with
  | [] => None
  | (k', v) :: d' => if String.eqb k k' then Some v else dict_get k d'
  end.

(** [v[k]] for a string key [k]: only a dict can be subscripted by a
    string; a missing key is a [KeyError], anything else a [TypeError]. *)
Definition getitem (v : value) (k : string) : result value :=
  match v with
  | VDict d =>
      match dict_get k d with
      | Some x => Ok x
      | None => Raise (KeyError k)
      end
  | _ => Raise TypeError
  end.

(** ** Time *)

(** A naive [datetime] has microsecond resolution: it is kept as the
    number of microseconds since an arbitrary origin. *)
Definition datetime : Type := Z.

Definition usec_per_sec : Z := 1000000.
Definition usec_per_day : Z := 86400 * usec_per_sec.

(** A [timedelta] is normalised: [0 <= seconds < 86400] and
    [0 <= microseconds < 1000000], the sign lives in [days]. *)
Record timedelta : Type := mkTimedelta {
  days : Z;
  seconds : Z;
  microseconds : Z
}.

Definition datetime_sub (a b : datetime) : timedelta :=
  let d := a - b in
  {| days := d / usec_per_day;
     seconds := (d mod usec_per_day) / usec_per_sec;
     microseconds := d mod usec_per_sec |}.

(** ** HTTP *)

(** [urljoin] is left uninterpreted: a URL is the term that the client
    builds. *)
Inductive url : Type :=
| Url (s : string)
| urljoin (base : url) (path : string).

Fixpoint url_eqb (u v : url) : bool :=
  match u, v with
  | Url s, Url s' => String.eqb s s'
  | urljoin b p, urljoin b' p' => url_eqb b b' && String.eqb p p'
  | _, _ => false
  end.

(** A header is a value, or the f-string [f"Bearer {token}"]. *)
Inductive header : Type :=
| Plain (v : value)
| Bearer (token : value).

(** What [requests.post] hands back.  [json = None] stands for a body
    that [response.json()] cannot decode. *)
Record response : Type := mkResponse {
  status_code : Z;
  content : string;
  json : option value
}.

(** The observable calls, in the order in which they are made. *)
Inductive event : Type :=
| EvPost (u : url) (headers : list (string * header)) (body : value)
         (proxies timeout : value)
| EvPrint (v : value)
| EvSleep (secs : Z)
| EvStore (access_token refresh_token user_id : value)
          (last_time_token_refreshed : option datetime).

(** The world outside the client: the wall clock, what the server will
    answer to the coming requests (with the time each answer takes; [None]
    is a transport fault, as is an exhausted script), and the log. *)
Record world : Type := mkWorld {
  clock : datetime;
  script : list (option response * Z);
  trace : list event
}.

(** ** Constants of the module *)

Definition BASE_URL : string := "https://apptoogoodtogo.com/api/".
Definition API_ITEM_ENDPOINT : string := "item/v7/".
Definition LOGIN_ENDPOINT : string := "auth/v3/authByEmail".
Definition AUTH_ENDPOINT : string := "auth/v3/authByRequestPollingId".
Definition SIGNUP_BY_EMAIL_ENDPOINT : string := "auth/v2/signUpByEmail".
Definition REFRESH_ENDPOINT : string := "auth/v1/token/refresh".
Definition ALL_BUSINESS_ENDPOINT : string := "map/v1/listAllBusinessMap".
Definition USER_AGENTS : list string :=
  [ "TGTG/21.9.3 Dalvik/2.1.0 (Linux; U; Android 6.0.1; Nexus 5 Build/M4B30Z)";
    "TGTG/21.9.3 Dalvik/2.1.0 (Linux; U; Android 7.0; SM-G935F Build/NRD90M)";
    "TGTG/21.9.3 Dalvik/2.1.0 (Linux; Android 6.0.1; SM-G920V Build/MMB29K)" ]%string.
Definition DEFAULT_ACCESS_TOKEN_LIFETIME : Z := 3600 * 4.

Definition HTTP_OK : Z := 200.
Definition HTTP_ACCEPTED : Z := 202.

(** ** The client object *)

(** [store_function] is a callable or [None]; only whether it is there
    matters: calling it is logged as [EvStore]. *)
Record TgtgClient : Type := mkClient {
  base_url : string;
  email : value;
  password : value;
  access_token : value;
  refresh_token : value;
  last_time_token_refreshed : option datetime;
  access_token_lifetime : Z;
  user_id : value;
  user_agent : value;
  language : value;
  proxies : value;
  timeout : value;
  store_function : bool
}.

Definition with_access_token (v : value) (c : TgtgClient) : TgtgClient :=
  mkClient (base_url c) (email c) (password c) v (refresh_token c)
           (last_time_token_refreshed c) (access_token_lifetime c) (user_id c)
           (user_agent c) (language c) (proxies c) (timeout c) (store_function c).

Definition with_refresh_token (v : value) (c : TgtgClient) : TgtgClient :=
  mkClient (base_url c) (email c) (password c) (access_token c) v
           (last_time_token_refreshed c) (access_token_lifetime c) (user_id c)
           (user_agent c) (language c) (proxies c) (timeout c) (store_function c).

Definition with_last_time_token_refreshed (t : option datetime) (c : TgtgClient)
  : TgtgClient :=
  mkClient (base_url c) (email c) (password c) (access_token c) (refresh_token c)
           t (access_token_lifetime c) (user_id c)
           (user_agent c) (language c) (proxies c) (timeout c) (store_function c).

Definition with_user_id (v : value) (c : TgtgClient) : TgtgClient :=
  mkClient (base_url c) (email c) (password c) (access_token c) (refresh_token c)
           (last_time_token_refreshed c) (access_token_lifetime c) v
           (user_agent c) (language c) (proxies c) (timeout c) (store_function c).

(** ** The monad of methods *)

Definition M (A : Type) : Type :=
  TgtgClient -> world -> result A * TgtgClient * world.

Definition ret {A} (a : A) : M A := fun c w => (Ok a, c, w).

Definition raise {A} (e : exn) : M A := fun c w => (Raise e, c, w).

Definition bind {A B} (m : M A) (f : A -> M B) : M B :=
  fun c w =>
    match m c w with
    | (Ok a, c', w') => f a c' w'
    | (Raise e, c', w') => (Raise e, c', w')
    end.

Notation "x <- m ;; k" := (bind m (fun x => k))
  (at level 61, m at next level, right associativity).
Notation "m ;;; k" := (bind m (fun _ => k))
  (at level 61, right associativity).

Definition lift {A} (r : result A) : M A := fun c w => (r, c, w).

Definition self : M TgtgClient := fun c w => (Ok c, c, w).

Definition assign (f : TgtgClient -> TgtgClient) : M unit :=
  fun c w => (Ok tt, f c, w).

Definition emit (e : event) : M unit :=
  fun c w => (Ok tt, c, mkWorld (clock w) (script w) (trace w ++ [e])).

(** [datetime.datetime.now()] *)
Definition now : M datetime := fun c w => (Ok (clock w), c, w).

(** [time.sleep(secs)] *)
Definition sleep (secs : Z) : M unit :=
  fun c w =>
    (Ok tt, c,
     mkWorld (clock w + secs * usec_per_sec) (script w) (trace w ++ [EvSleep secs])).

(** [print(v)] *)
Definition print (v : value) : M unit := emit (EvPrint v).

(** [requests.post(u, headers=h, json=body, proxies=.., timeout=..)]: the
    call is logged, the next scripted answer is consumed and the clock
    moves by the time it took. *)
Definition requests_post (u : url) (h : list (string * header)) (body : value)
  : M response :=
  fun c w =>
    let tr := trace w ++ [EvPost u h body (proxies c) (timeout c)] in
    match script w with
    | [] => (Raise RequestException, c, mkWorld (clock w) [] tr)
    | (None, dt) :: rest => (Raise RequestException, c, mkWorld (clock w + dt) rest tr)
    | (Some r, dt) :: rest => (Ok r, c, mkWorld (clock w + dt) rest tr)
    end.

(** [response.json()] *)
Definition response_json (r : response) : M value :=
  match json r with
  | Some v => ret v
  | None => raise JSONDecodeError
  end.

(** ** Methods of [TgtgClient] *)

Definition _get_url (c : TgtgClient) (path : string) : url :=
  urljoin (Url (base_url c)) path.

Definition _headers (c : TgtgClient) : list (string * header) :=
  let headers :=
    [ ("user-agent", Plain (user_agent c));
      ("accept-language", Plain (language c));
      ("Accept-Encoding", Plain (VStr "gzip")) ]%string in
  if truthy (access_token c)
  then headers ++ [("authorization"%string, Bearer (access_token c))]
  else headers.

Definition _already_logged (c : TgtgClient) : bool :=
  truthy (py_and (access_token c) (user_id c)).

(** The guard of [_refresh_token]: [last_time_token_refreshed] is there
    (a datetime is always true) and the [seconds] field of the elapsed
    [timedelta] is at most the lifetime. *)
Definition token_fresh (c : TgtgClient) (t : datetime) : bool :=
  match last_time_token_refreshed c with
  | Some t0 => seconds (datetime_sub t t0) <=? access_token_lifetime c
  | None => false
  end.

Definition call_store_function : M unit :=
  c <- self ;;
  if store_function c
  then emit (EvStore (access_token c) (refresh_token c) (user_id c)
                     (last_time_token_refreshed c))
  else ret tt.

Definition _refresh_token : M unit :=
  c <- self ;;
  t <- now ;;
  if token_fresh c t then ret tt
  else
    response <- requests_post (_get_url c REFRESH_ENDPOINT) (_headers c)
                  (VDict [("refresh_token"%string, refresh_token c)]) ;;
    if status_code response =? HTTP_OK then
      j <- response_json response ;;
      print j ;;;
      j <- response_json response ;;
      a <- lift (getitem j "access_token") ;;
      assign (with_access_token a) ;;;
      j <- response_json response ;;
      r <- lift (getitem j "refresh_token") ;;
      assign (with_refresh_token r) ;;;
      t' <- now ;;
      assign (with_last_time_token_refreshed (Some t')) ;;;
      call_store_function
    else raise (TgtgAPIError (status_code response) (content response)).

(** [login_response["startup_data"]["user"]["user_id"]] *)
Definition startup_user_id (j : value) : result value :=
  match getitem j "startup_data" with
  | Ok sd =>
      match getitem sd "user" with
      | Ok u => getitem u "user_id"
      | Raise e => Raise e
      end
  | Raise e => Raise e
  end.

(** The [while retries > 0] loop of [_login]: [retries] only goes down, by
    one, on a 202; a 200 breaks and any other status raises. *)
Fixpoint poll_loop (retries : nat) (login_response : value) : M unit :=
  match retries with
  | O => ret tt
  | S retries' =>
      c <- self ;;
      pid <- lift (getitem login_response "polling_id") ;;
      response <- requests_post (_get_url c AUTH_ENDPOINT) (_headers c)
                    (VDict [("device_type", VStr "ANDROID");
                            ("email", email c);
                            ("request_polling_id", pid)]%string) ;;
      if status_code response =? HTTP_OK then
        login_response <- response_json response ;;
        a <- lift (getitem login_response "access_token") ;;
        assign (with_access_token a) ;;;
        r <- lift (getitem login_response "refresh_token") ;;
        assign (with_refresh_token r) ;;;
        t <- now ;;
        assign (with_last_time_token_refreshed (Some t)) ;;;
        u <- lift (startup_user_id login_response) ;;
        assign (with_user_id u) ;;;
        call_store_function
      else if status_code response =? HTTP_ACCEPTED then
        print (VStr "Login request not yet accepted. Check mail.") ;;;
        sleep 10 ;;;
        poll_loop retries' login_response
      else raise (TgtgLoginError (status_code response) (content response))
  end.

Definition _login : M unit :=
  c <- self ;;
  if _already_logged c then _refresh_token
  else
    if negb (truthy (access_token c)) && negb (truthy (email c))
    then raise (ValueError "You must fill email")
    else
      response <- requests_post (_get_url c LOGIN_ENDPOINT) (_headers c)
                    (VDict [("device_type", VStr "ANDROID");
                            ("email", email c)]%string) ;;
      if status_code response =? HTTP_OK then
        login_response <- response_json response ;;
        poll_loop 60 login_response
      else raise (TgtgLoginError (status_code response) (content response)).

(** Keyword arguments of [get_items]. *)
Record get_items_args : Type := mkGetItemsArgs {
  latitude : value;
  longitude : value;
  radius : value;
  page_size : value;
  page : value;
  discover : value;
  favorites_only : value;
  item_categories : value;
  diet_categories : value;
  pickup_earliest : value;
  pickup_latest : value;
  search_phrase : value;
  with_stock_only : value;
  hidden_only : value;
  we_care_only : value
}.

Definition get_items_defaults : get_items_args :=
  {| latitude := VFloat 0 0;
     longitude := VFloat 0 0;
     radius := VInt 21;
     page_size := VInt 20;
     page := VInt 1;
     discover := VBool false;
     favorites_only := VBool true;
     item_categories := VNone;
     diet_categories := VNone;
     pickup_earliest := VNone;
     pickup_latest := VNone;
     search_phrase := VNone;
     with_stock_only := VBool false;
     hidden_only := VBool false;
     we_care_only := VBool false |}.

Definition get_items (a : get_items_args) : M value :=
  _login ;;;
  c <- self ;;
  let data :=
    VDict [ ("user_id", user_id c);
            ("origin", VDict [("latitude", latitude a); ("longitude", longitude a)]);
            ("radius", radius a);
            ("page_size", page_size a);
            ("page", page a);
            ("discover", discover a);
            ("favorites_only", favorites_only a);
            ("item_categories",
              if truthy (item_categories a) then item_categories a else VList []);
            ("diet_categories",
              if truthy (diet_categories a) then diet_categories a else VList []);
            ("pickup_earliest", pickup_earliest a);
            ("pickup_latest", pickup_latest a);
            ("search_phrase",
              if truthy (search_phrase a) then search_phrase a else VNone);
            ("with_stock_only", with_stock_only a);
            ("hidden_only", hidden_only a);
            ("we_care_only", we_care_only a) ]%string in
  response <- requests_post (_get_url c API_ITEM_ENDPOINT) (_headers c) data ;;
  if status_code response =? HTTP_OK then
    j <- response_json response ;;
    lift (getitem j "items")
  else raise (TgtgAPIError (status_code response) (content response)).

(** An item id is a number or a string; [str] is Python's [str(item_id)]. *)
Inductive item_id : Type :=
| IdInt (z : Z)
| IdStr (s : string).

Definition str (i : item_id) : string :=
  match i with
  | IdInt z => NilZero.string_of_int (Z.to_int z)
  | IdStr s => s
  end.

Definition get_item (i : item_id) : M value :=
  _login ;;;
  c <- self ;;
  response <- requests_post (urljoin (_get_url c API_ITEM_ENDPOINT) (str i))
                (_headers c)
                (VDict [("user_id", user_id c); ("origin", VNone)]%string) ;;
  if status_code response =? HTTP_OK then response_json response
  else raise (TgtgAPIError (status_code response) (content response)).

Definition set_favorite (i : item_id) (is_favorite : value) : M unit :=
  _login ;;;
  c <- self ;;
  response <- requests_post
                (urljoin (_get_url c API_ITEM_ENDPOINT) (str i ++ "/setFavorite"))
                (_headers c)
                (VDict [("is_favorite"%string, is_favorite)]) ;;
  if negb (status_code response =? HTTP_OK)
  then raise (TgtgAPIError (status_code response) (content response))
  else ret tt.

(** Keyword arguments of [signup_by_email]. *)
Record signup_args : Type := mkSignupArgs {
  su_email : value;
  su_password : value;
  su_name : value;
  su_country_id : value;
  su_device_type : value;
  su_newsletter_opt_in : value;
  su_push_notification_opt_in : value
}.

(** Returns [self]: the client it ends with. *)
Definition signup_by_email (a : signup_args) : M TgtgClient :=
  c <- self ;;
  response <- requests_post (_get_url c SIGNUP_BY_EMAIL_ENDPOINT) (_headers c)
                (VDict [ ("country_id", su_country_id a);
                         ("device_type", su_device_type a);
                         ("email", su_email a);
                         ("name", su_name a);
                         ("newsletter_opt_in", su_newsletter_opt_in a);
                         ("password", su_password a);
                         ("push_notification_opt_in",
                           su_push_notification_opt_in a) ]%string) ;;
  if status_code response =? HTTP_OK then
    j <- response_json response ;;
    v <- lift (getitem j "access_token") ;;
    assign (with_access_token v) ;;;
    j <- response_json response ;;
    v <- lift (getitem j "refresh_token") ;;
    assign (with_refresh_token v) ;;;
    t <- now ;;
    assign (with_last_time_token_refreshed (Some t)) ;;;
    j <- response_json response ;;
    v <- lift (startup_user_id j) ;;
    assign (with_user_id v) ;;;
    self
  else raise (TgtgAPIError (status_code response) (content response)).

(** Arguments of the constructor. *)
Record init_args : Type := mkInitArgs {
  arg_url : string;
  arg_email : value;
  arg_password : value;
  arg_access_token : value;
  arg_user_id : value;
  arg_user_agent : value;
  arg_language : value;
  arg_proxies : value;
  arg_timeout : value;
  arg_refresh_token : value;
  arg_last_time_token_refreshed : option datetime;
  arg_access_token_lifetime : Z;
  arg_store_function : bool
}.

Definition init_defaults : init_args :=
  {| arg_url := BASE_URL;
     arg_email := VNone;
     arg_password := VNone;
     arg_access_token := VNone;
     arg_user_id := VNone;
     arg_user_agent := VNone;
     arg_language := VStr "en-UK";
     arg_proxies := VNone;
     arg_timeout := VNone;
     arg_refresh_token := VNone;
     arg_last_time_token_refreshed := None;
     arg_access_token_lifetime := DEFAULT_ACCESS_TOKEN_LIFETIME;
     arg_store_function := false |}.

(** [random.choice(USER_AGENTS)], [pick] being the random draw. *)
Definition random_choice (pick : nat) (l : list string) : value :=
  VStr (nth (pick mod List.length l) l ""%string).

(** [TgtgClient(...)]: the object exists only if [__init__] returns. *)
Definition __init__ (pick : nat) (a : init_args) : result TgtgClient :=
  if truthy (arg_password a)
  then Raise (DeprecationWarning "'password' is deprecated, use 'email' only ")
  else
    Ok {| base_url := arg_url a;
          email := arg_email a;
          password := arg_password a;
          access_token := arg_access_token a;
          refresh_token := arg_refresh_token a;
          last_time_token_refreshed := arg_last_time_token_refreshed a;
          access_token_lifetime := arg_access_token_lifetime a;
          user_id := arg_user_id a;
          user_agent :=
            if truthy (arg_user_agent a) then arg_user_agent a
            else random_choice pick USER_AGENTS;
          language := arg_language a;
          proxies := arg_proxies a;
          timeout := arg_timeout a;
          store_function := arg_store_function a |}.

(** ** Reading the log *)

Definition is_post_to (u : url) (e : event) : bool :=
  match e with
  | EvPost u' _ _ _ _ => url_eqb u u'
  | _ => false
  end.

Definition is_post (e : event) : bool :=
  match e with EvPost _ _ _ _ _ => true | _ => false end.

Definition is_store (e : event) : bool :=
  match e with EvStore _ _ _ _ => true | _ => false end.

Definition slept_of (e : event) : Z :=
  match e with EvSleep s => s | _ => 0 end.

Definition count (p : event -> bool) (tr : list event) : nat :=
  List.length (filter p tr).

(** Seconds asked of [sleep] in total. *)
Definition slept (tr : list event) : Z :=
  fold_right (fun e acc => slept_of e + acc) 0 tr.

(** The credential fields. *)
Definition credentials (c : TgtgClient)
  : value * value * value * option datetime :=
  (access_token c, refresh_token c, user_id c, last_time_token_refreshed c).

(** ** Operations as data, and what a step may do to the tokens *)

Definition void {A} (m : M A) : M unit := m ;;; ret tt.

Inductive operation : Type :=
| OpRefreshToken
| OpLogin
| OpGetItems (a : get_items_args)
| OpGetItem (i : item_id)
| OpSetFavorite (i : item_id) (is_favorite : value)
| OpSignupByEmail (a : signup_args).

Definition run (o : operation) : M unit :=
  match o with
  | OpRefreshToken => _refresh_token
  | OpLogin => _login
  | OpGetItems a => void (get_items a)
  | OpGetItem i => void (get_item i)
  | OpSetFavorite i f => void (set_favorite i f)
  | OpSignupByEmail a => void (signup_by_email a)
  end.

(** The three fields that travel together. *)
Definition tokens (c : TgtgClient) : value * value * option datetime :=
  (access_token c, refresh_token c, last_time_token_refreshed c).

(** [r] is one of the answers the server has in store. *)
Definition served (w : world) (r : response) : Prop :=
  exists dt, In (Some r, dt) (script w).

(** The time that the answers in [pre] take. *)
Definition delays (pre : list (option response * Z)) : Z :=
  fold_right (fun x acc => snd x + acc) 0 pre.

(** All three fields were assigned from one 200 answer, in a step that
    started in [w] and ended in [w']: the two tokens are the values of
    that answer and the time stamp is the clock at which it arrived, that
    is the clock of [w], plus the time taken by the answers up to and
    including this one, plus the time slept during the step. *)
Definition assigned_together (w : world) (c' : TgtgClient) (w' : world) : Prop :=
  exists pre r dt post body,
    script w = pre ++ (Some r, dt) :: post /\
    status_code r = HTTP_OK /\ json r = Some body /\
    getitem body "access_token" = Ok (access_token c') /\
    getitem body "refresh_token" = Ok (refresh_token c') /\
    last_time_token_refreshed c' =
      Some (clock w + delays pre + dt
            + (slept (trace w') - slept (trace w)) * usec_per_sec).

(** Only [access_token] was assigned: the 200 answer had no
    [refresh_token] and the step stopped there with a [KeyError]. *)
Definition access_token_alone (w : world) (c : TgtgClient)
           (res : result unit) (c' : TgtgClient) : Prop :=
  exists r body,
    served w r /\ status_code r = HTTP_OK /\ json r = Some body /\
    getitem body "access_token" = Ok (access_token c') /\
    getitem body "refresh_token" = Raise (KeyError "refresh_token") /\
    refresh_token c' = refresh_token c /\
    last_time_token_refreshed c' = last_time_token_refreshed c /\
    res = Raise (KeyError "refresh_token").

(** "Either leaves the three fields unchanged or assigns all three." *)
Definition all_or_nothing (o : operation) (c : TgtgClient) (w : world) : Prop :=
  let '(_, c', w') := run o c w in
  tokens c' = tokens c \/ assigned_together w c' w'.

(** ** The polling window *)

Definition poll_url (c : TgtgClient) : url := _get_url c AUTH_ENDPOINT.

(** Answers that all arrive, each after its own delay. *)
Definition answers (rs : list (response * Z)) : list (option response * Z) :=
  map (fun x => (Some (fst x), snd x)) rs.

Definition all_accepted (rs : list (response * Z)) : bool :=
  forallb (fun x => status_code (fst x) =? HTTP_ACCEPTED) rs.

(** The configuration guard of [_login] lets the client through. *)
Definition may_request_login (c : TgtgClient) : bool :=
  negb (negb (truthy (access_token c)) && negb (truthy (email c))).

(** ** Sample sessions *)

Definition session_body (a r u : string) : value :=
  VDict [ ("access_token", VStr a);
          ("refresh_token", VStr r);
          ("startup_data", VDict [("user", VDict [("user_id", VStr u)])]) ]%string.

Definition ok_response (body : value) : response :=
  {| status_code := 200; content := "(json)"; json := Some body |}.

Definition pending_response : response :=
  {| status_code := 202; content := ""; json := None |}.

Definition error_response (s : Z) : response :=
  {| status_code := s; content := "oops"; json := None |}.

(** A client built with [email] only. *)
Definition newcomer : TgtgClient :=
  {| base_url := BASE_URL;
     email := VStr "me@example.org";
     password := VNone;
     access_token := VNone;
     refresh_token := VNone;
     last_time_token_refreshed := None;
     access_token_lifetime := DEFAULT_ACCESS_TOKEN_LIFETIME;
     user_id := VNone;
     user_agent := VStr "TGTG/21.9.3";
     language := VStr "en-UK";
     proxies := VNone;
     timeout := VNone;
     store_function := true |}.

(** A client restored from a stored session, refreshed at time 0. *)
Definition returning : TgtgClient :=
  {| base_url := BASE_URL;
     email := VNone;
     password := VNone;
     access_token := VStr "A0";
     refresh_token := VStr "R0";
     last_time_token_refreshed := Some 0;
     access_token_lifetime := DEFAULT_ACCESS_TOKEN_LIFETIME;
     user_id := VStr "U0";
     user_agent := VStr "TGTG/21.9.3";
     language := VStr "en-UK";
     proxies := VNone;
     timeout := VNone;
     store_function := true |}.

(** A stored session of which the user id was lost. *)
Definition half_restored : TgtgClient := with_user_id VNone returning.

Definition at_seconds (s : Z) (answers : list (option response * Z)) : world :=
  {| clock := s * usec_per_sec; script := answers; trace := [] |}.

Definition polling_answer : response :=
  ok_response (VDict [("polling_id"%string, VStr "P1")]).

Definition signup_sample : signup_args :=
  {| su_email := VStr "me@example.org";
     su_password := VStr "secret";
     su_name := VStr "Me";
     su_country_id := VStr "GB";
     su_device_type := VStr "ANDROID";
     su_newsletter_opt_in := VBool false;
     su_push_notification_opt_in := VBool true |}.

(** A 200 answer of the refresh endpoint that lacks [refresh_token]. *)
Definition lone_access_token : response :=
  ok_response (VDict [("access_token"%string, VStr "A1")]).

(** [n] times "not yet confirmed", each answer taking 0.3 s. *)
Definition still_pending (n : nat) : list (response * Z) :=
  repeat (pending_response, 300000) n.

(** A 200 answer of the poll endpoint without the nested user id. *)
Definition no_user_id_body : value :=
  VDict [ ("access_token", VStr "A1");
          ("refresh_token", VStr "R1");
          ("startup_data", VDict [("user", VDict [])]) ]%string.

(** What one step does to the three token fields: nothing, all three
    from one answer, or [access_token] alone before a [KeyError]. *)
Definition token_step (w : world) (c : TgtgClient) (res : result unit)
           (c' : TgtgClient) (w' : world) : Prop :=
  tokens c' = tokens c \/
  assigned_together w c' w' \/
  access_token_alone w c res c'.

(** ** What the operations leave alone, and what they tell the store *)

(** The fields that no method assigns. *)
Definition config (c : TgtgClient)
  : string * value * value * Z * value * value * value * value * bool :=
  (base_url c, email c, password c, access_token_lifetime c, user_agent c,
   language c, proxies c, timeout c, store_function c).

(** The snapshots handed to the store function, in order. *)
Fixpoint snapshots (tr : list event)
  : list (value * value * value * option datetime) :=
  match tr with
  | [] => []
  | EvStore a r u t :: tr' => (a, r, u, t) :: snapshots tr'
  | _ :: tr' => snapshots tr'
  end.

(** [headers.get(k)] *)
Fixpoint header_get (k : string) (h : list (string * header)) : option header :=
  match h with
  | [] => None
  | (k', v) :: h' => if String.eqb k k' then Some v else header_get k h'
  end.

Definition refresh_url (c : TgtgClient) : url := _get_url c REFRESH_ENDPOINT.
Definition login_url (c : TgtgClient) : url := _get_url c LOGIN_ENDPOINT.
Definition items_url (c : TgtgClient) : url := _get_url c API_ITEM_ENDPOINT.
Definition signup_url (c : TgtgClient) : url := _get_url c SIGNUP_BY_EMAIL_ENDPOINT.

(** A method that makes exactly one request and leaves the client alone:
    what follows [_login] in the item operations. *)
Definition one_request {A} (m : M A) : Prop :=
  forall c w,
    let '(_, c', w') := m c w in
    c' = c /\ exists u h b p t, trace w' = trace w ++ [EvPost u h b p t].

(** The operations that call [_login] first. *)
Definition calls_login_first (o : operation) : bool :=
  match o with
  | OpGetItems _ | OpGetItem _ | OpSetFavorite _ _ => true
  | _ => false
  end.

(** The filter document that [get_items] posts. *)
Definition items_query (c : TgtgClient) (a : get_items_args) : value :=
  VDict [ ("user_id", user_id c);
          ("origin", VDict [("latitude", latitude a); ("longitude", longitude a)]);
          ("radius", radius a);
          ("page_size", page_size a);
          ("page", page a);
          ("discover", discover a);
          ("favorites_only", favorites_only a);
          ("item_categories",
            if truthy (item_categories a) then item_categories a else VList []);
          ("diet_categories",
            if truthy (diet_categories a) then diet_categories a else VList []);
          ("pickup_earliest", pickup_earliest a);
          ("pickup_latest", pickup_latest a);
          ("search_phrase",
            if truthy (search_phrase a) then search_phrase a else VNone);
          ("with_stock_only", with_stock_only a);
          ("hidden_only", hidden_only a);
          ("we_care_only", we_care_only a) ]%string.

(** The registration document that [signup_by_email] posts. *)
Definition signup_query (a : signup_args) : value :=
  VDict [ ("country_id", su_country_id a);
          ("device_type", su_device_type a);
          ("email", su_email a);
          ("name", su_name a);
          ("newsletter_opt_in", su_newsletter_opt_in a);
          ("password", su_password a);
          ("push_notification_opt_in", su_push_notification_opt_in a) ]%string.

(** The store function was not called, or it was called once, last, with
    the credentials the client ends with. *)
Definition stored_at_most_once (c : TgtgClient) (w : world)
           (c' : TgtgClient) (w' : world) : Prop :=
  snapshots (trace w') = snapshots (trace w) \/
  (store_function c = true /\
   snapshots (trace w') = snapshots (trace w) ++ [credentials c']).

(** What a run from [(c, w)] to [(c', w')] may cost and must keep: at
    most [posts] requests and [secs] seconds of sleep, the configuration
    untouched, the store told at most once. *)
Definition within (posts : nat) (secs : Z) (c : TgtgClient) (w : world)
           (c' : TgtgClient) (w' : world) : Prop :=
  config c' = config c /\
  (count is_post (trace w) <= count is_post (trace w')
   <= count is_post (trace w) + posts)%nat /\
  slept (trace w) <= slept (trace w') <= slept (trace w) + secs /\
  stored_at_most_once c w c' w'.

Definition not_signup (o : operation) : bool :=
  match o with
  | OpSignupByEmail _ => false
  | _ => true
  end.

(** The next request meets a transport fault. *)
Definition next_request_fails (w : world) : bool :=
  match script w with
  | [] => true
  | (None, _) :: _ => true
  | (Some _, _) :: _ => false
  end.

(** The client after a confirmed login at time [t]. *)
Definition logged_in (c : TgtgClient) (a r u : value) (t : datetime)
  : TgtgClient :=
  with_user_id u
    (with_last_time_token_refreshed (Some t)
       (with_refresh_token r (with_access_token a c))).

(** A day-long lifetime, and a client that has it. *)
Definition patient : TgtgClient :=
  mkClient BASE_URL VNone VNone (VStr "A0") (VStr "R0") (Some 0) 86400
           (VStr "U0") (VStr "TGTG/21.9.3") (VStr "en-UK") VNone VNone false.

(** A stored session whose time stamp was not kept. *)
Definition unstamped : TgtgClient := with_last_time_token_refreshed None returning.

Definition items_body : value :=
  VDict [("items"%string, VList [VDict [("item_id"%string, VStr "42")]])].

(** The token has expired; the server will renew it and then list the
    items. *)
Definition renews_then_lists : world :=
  at_seconds 20000
    [(Some (ok_response (session_body "A1" "R1" "U1")), 1);
     (Some (ok_response items_body), 1)].

(** Constructor arguments of a session restored from a store. *)
Definition restored_args : init_args :=
  {| arg_url := BASE_URL;
     arg_email := VNone;
     arg_password := VNone;
     arg_access_token := VStr "A0";
     arg_user_id := VStr "U0";
     arg_user_agent := VNone;
     arg_language := VStr "en-UK";
     arg_proxies := VNone;
     arg_timeout := VNone;
     arg_refresh_token := VStr "R0";
     arg_last_time_token_refreshed := Some 0;
     arg_access_token_lifetime := DEFAULT_ACCESS_TOKEN_LIFETIME;
     arg_store_function := true |}.

(** The client that the constructor makes of them, the draw being 7. *)
Definition restored : TgtgClient :=
  Eval cbv in
    match __init__ 7 restored_args with
    | Ok c => c
    | Raise _ => returning
    end.

Arguments count : simpl never.
Arguments slept : simpl never.
Arguments poll_loop : simpl never.

(** * Properties *)

(** ** Elapsed time *)

Lemma timedelta_normalised (a b : datetime) :
  0 <= seconds (datetime_sub a b) < 86400 /\
  0 <= microseconds (datetime_sub a b) < usec_per_sec.
Proof.
  unfold datetime_sub, usec_per_day, usec_per_sec; cbn [days seconds microseconds].
  pose proof (Z.mod_pos_bound (a - b) (86400 * 1000000) ltac:(lia)) as Hd.
  pose proof (Z.mod_pos_bound (a - b) 1000000 ltac:(lia)) as Hu.
  split; [ split | lia ].
  - apply Z.div_pos; lia.
  - apply Z.div_lt_upper_bound; lia.
Qed.

(** The timedelta is the elapsed time, split into its three fields. *)
Lemma timedelta_total (a b : datetime) :
  a - b =
  days (datetime_sub a b) * usec_per_day
  + seconds (datetime_sub a b) * usec_per_sec
  + microseconds (datetime_sub a b).
Proof.
  unfold datetime_sub, usec_per_day, usec_per_sec; cbn [days seconds microseconds].
  set (d := a - b).
  pose proof (Z.div_mod d (86400 * 1000000) ltac:(lia)) as H1.
  pose proof (Z.div_mod (d mod (86400 * 1000000)) 1000000 ltac:(lia)) as H2.
  assert (H3 : (d mod (86400 * 1000000)) mod 1000000 = d mod 1000000).
  { rewrite (Z.mul_comm 86400 1000000).
    rewrite Z.rem_mul_r by lia.
    rewrite Z.mul_comm, Z.mod_add by lia.
    apply Z.mod_mod; lia. }
  rewrite H3 in H2. lia.
Qed.

(** Within the first day after a refresh the guard compares the whole
    seconds elapsed with the lifetime. *)
Lemma seconds_first_day (a b : datetime) :
  0 <= a - b < usec_per_day ->
  seconds (datetime_sub a b) = (a - b) / usec_per_sec.
Proof.
  intros H. unfold datetime_sub; cbn [seconds].
  rewrite Z.mod_small by exact H. reflexivity.
Qed.

Example seconds_ten_before :
  datetime_sub 0 (10 * usec_per_sec) = mkTimedelta (-1) 86390 0.
Proof. reflexivity. Qed.

Example seconds_half_past_lifetime :
  token_fresh returning (14400 * usec_per_sec + 500000) = true /\
  token_fresh returning (14401 * usec_per_sec) = false.
Proof. split; reflexivity. Qed.

Example str_of_ids :
  str (IdInt 42) = "42"%string /\ str (IdInt 0) = "0"%string /\
  str (IdInt (-5)) = "-5"%string /\ str (IdStr "7a") = "7a"%string.
Proof. repeat split; reflexivity. Qed.

(** A token whose age is between zero and its lifetime passes the guard. *)
Lemma token_fresh_within_lifetime (c : TgtgClient) (t t0 : datetime) :
  last_time_token_refreshed c = Some t0 ->
  0 <= t - t0 <= access_token_lifetime c * usec_per_sec ->
  token_fresh c t = true.
Proof.
  intros Hl [H0 H1]. unfold token_fresh. rewrite Hl.
  apply Z.leb_le.
  unfold datetime_sub, usec_per_day, usec_per_sec in *; cbn [seconds].
  apply Z.le_trans with ((t - t0) / 1000000).
  - apply Z.div_le_mono; [ lia | ].
    apply Z.mod_le; lia.
  - apply Z.div_le_upper_bound; lia.
Qed.

(** ** No network call when the guard holds *)

Lemma refresh_skipped (c : TgtgClient) (w : world) :
  token_fresh c (clock w) = true ->
  _refresh_token c w = (Ok tt, c, w).
Proof.
  intros H. unfold _refresh_token, bind, self, now, ret. rewrite H. reflexivity.
Qed.

Lemma login_skipped (c : TgtgClient) (w : world) :
  _already_logged c = true ->
  token_fresh c (clock w) = true ->
  _login c w = (Ok tt, c, w).
Proof.
  intros Ha Hf. unfold _login, bind, self. rewrite Ha.
  apply refresh_skipped, Hf.
Qed.

(** C1, at the input where the code departs from the claim: a token
    refreshed one day and ten seconds ago, with the default lifetime of
    four hours, is older than its lifetime, and [_login] returns without
    any request: the guard reads the [seconds] field of the elapsed
    timedelta, which is 10, the day being held by [days]. *)
Theorem C1_day_old_token_not_refreshed :
  let w := at_seconds (86400 + 10) [(Some (ok_response (session_body "A1" "R1" "U0")), 0)] in
  _already_logged returning = true /\
  last_time_token_refreshed returning = Some 0 /\
  access_token_lifetime returning * usec_per_sec < clock w - 0 /\
  datetime_sub (clock w) 0 = mkTimedelta 1 10 0 /\
  _login returning w = (Ok tt, returning, w) /\
  count is_post (trace (snd (_login returning w))) = 0%nat.
Proof.
  vm_compute. repeat split; reflexivity.
Qed.

(** ** The constructor *)

(** C10: the constructor raises [DeprecationWarning] exactly when the
    [password] argument is true in Python's sense (supplied and not
    empty); otherwise it returns the client, whatever the other
    arguments. *)
Theorem C10_password_refused (pick : nat) (a : init_args) :
  (truthy (arg_password a) = true /\
   exists msg, __init__ pick a = Raise (DeprecationWarning msg))
  \/
  (truthy (arg_password a) = false /\
   exists c, __init__ pick a = Ok c /\ password c = arg_password a).
Proof.
  unfold __init__.
  destruct (truthy (arg_password a)) eqn:E.
  - left. split; [ reflexivity | eexists; reflexivity ].
  - right. split; [ reflexivity | eexists; split; reflexivity ].
Qed.

(** ** The configuration guard *)

(** C2, refuted as stated: the stored session that lost its user id and
    has no email is not logged in and has no email, yet [_login] does not
    raise [ValueError]: it posts the login request (with a null email)
    and fails on the server's answer. *)
Lemma C2_token_without_user_id_posts :
  let w := at_seconds 0 [(Some (error_response 400), 0)] in
  _already_logged half_restored = false /\
  truthy (email half_restored) = false /\
  (forall msg, fst (fst (_login half_restored w)) <> Raise (ValueError msg)) /\
  fst (fst (_login half_restored w)) = Raise (TgtgLoginError 400 "oops") /\
  trace (snd (_login half_restored w)) =
    [EvPost (_get_url half_restored LOGIN_ENDPOINT) (_headers half_restored)
            (VDict [("device_type", VStr "ANDROID"); ("email", VNone)]%string)
            VNone VNone].
Proof.
  vm_compute. repeat split; try reflexivity.
  intros msg H. discriminate H.
Qed.

(** C2, amended: when [access_token] and [email] are both absent,
    [_login] raises [ValueError], makes no call and changes nothing. *)
Theorem C2_no_token_no_email_raises (c : TgtgClient) (w : world) :
  truthy (access_token c) = false ->
  truthy (email c) = false ->
  _login c w = (Raise (ValueError "You must fill email"), c, w).
Proof.
  intros Ha He.
  unfold _login, bind, self, _already_logged, py_and, raise.
  rewrite Ha. rewrite Ha. rewrite He. reflexivity.
Qed.

Lemma C2_no_token_no_email_raises_witness :
  _login (with_access_token VNone half_restored) (at_seconds 0 []) =
  (Raise (ValueError "You must fill email"),
   with_access_token VNone half_restored, at_seconds 0 []).
Proof.
  apply C2_no_token_no_email_raises; reflexivity.
Defined.

(** ** Reading the log *)

Lemma count_app (p : event -> bool) (a b : list event) :
  count p (a ++ b) = (count p a + count p b)%nat.
Proof. unfold count. rewrite filter_app, length_app. reflexivity. Qed.

Lemma count_snoc (p : event -> bool) (tr : list event) (e : event) :
  count p (tr ++ [e]) = (count p tr + if p e then 1 else 0)%nat.
Proof. rewrite count_app. unfold count. cbn. destruct (p e); reflexivity. Qed.

Lemma slept_app (a b : list event) : slept (a ++ b) = slept a + slept b.
Proof.
  unfold slept. induction a as [|e a IH]; cbn; [ reflexivity | rewrite IH; lia ].
Qed.

Lemma slept_snoc (tr : list event) (e : event) :
  slept (tr ++ [e]) = slept tr + slept_of e.
Proof. rewrite slept_app. unfold slept. cbn. lia. Qed.

Lemma poll_url_not_login (c : TgtgClient) :
  url_eqb (poll_url c) (_get_url c LOGIN_ENDPOINT) = false.
Proof. cbn. rewrite String.eqb_refl. reflexivity. Qed.

Lemma poll_url_refl (c : TgtgClient) : url_eqb (poll_url c) (poll_url c) = true.
Proof. cbn. rewrite String.eqb_refl. reflexivity. Qed.

(** ** The refresh flow *)

(** C3: once the guard has let the request through, a 200 answer whose
    body has [access_token] and [refresh_token] puts exactly these two
    values in the client, stamps [last_time_token_refreshed] with the
    clock, keeps [user_id] and tells the store function if there is one;
    any other status raises [TgtgAPIError] with that status and the raw
    body, the client being left as it was. *)
Theorem C3_refresh_answer (c : TgtgClient) (w : world) (r : response) (dt : Z)
        (rest : list (option response * Z)) :
  token_fresh c (clock w) = false ->
  script w = (Some r, dt) :: rest ->
  (forall body a rt,
     status_code r = HTTP_OK ->
     json r = Some body ->
     getitem body "access_token" = Ok a ->
     getitem body "refresh_token" = Ok rt ->
     let '(res, c', w') := _refresh_token c w in
     res = Ok tt /\
     credentials c' = (a, rt, user_id c, Some (clock w')) /\
     clock w' = clock w + dt /\
     count is_post (trace w') = (count is_post (trace w) + 1)%nat /\
     count is_store (trace w') =
       (count is_store (trace w) + if store_function c then 1 else 0)%nat)
  /\
  (status_code r <> HTTP_OK ->
   _refresh_token c w =
   (Raise (TgtgAPIError (status_code r) (content r)), c,
    mkWorld (clock w + dt) rest
      (trace w ++
       [EvPost (_get_url c REFRESH_ENDPOINT) (_headers c)
          (VDict [("refresh_token"%string, refresh_token c)])
          (proxies c) (timeout c)]))).
Proof.
  intros Hf Hs. split.
  - intros body a rt H200 Hj Ha Hr.
    unfold _refresh_token, bind, self, now, requests_post. rewrite Hf, Hs.
    rewrite H200. cbn -[getitem]. unfold response_json. rewrite Hj. cbn -[getitem].
    unfold lift. rewrite Ha. cbn -[getitem]. rewrite Hr. cbn -[getitem].
    destruct (store_function c); cbn -[getitem];
      rewrite ?count_snoc; cbn [is_post is_store]; repeat split; lia.
  - intros Hn.
    unfold _refresh_token, bind, self, now, requests_post. rewrite Hf, Hs.
    apply Z.eqb_neq in Hn. rewrite Hn. reflexivity.
Qed.

Lemma C3_refresh_answer_witness :
  (let '(res, c', w') :=
     _refresh_token returning
       (at_seconds 20000 [(Some (ok_response (session_body "A1" "R1" "U1")), 7)]) in
   res = Ok tt /\
   credentials c' = (VStr "A1", VStr "R1", VStr "U0", Some (clock w')) /\
   clock w' = 20000 * usec_per_sec + 7 /\
   count is_post (trace w') = 1%nat /\
   count is_store (trace w') = 1%nat)
  /\
  _refresh_token returning (at_seconds 20000 [(Some (error_response 403), 7)]) =
  (Raise (TgtgAPIError 403 "oops"), returning,
   mkWorld (20000 * usec_per_sec + 7) []
     [EvPost (_get_url returning REFRESH_ENDPOINT) (_headers returning)
        (VDict [("refresh_token"%string, VStr "R0")]) VNone VNone]).
Proof.
  split.
  - apply (proj1 (C3_refresh_answer returning
                    (at_seconds 20000
                       [(Some (ok_response (session_body "A1" "R1" "U1")), 7)])
                    (ok_response (session_body "A1" "R1" "U1")) 7 []
                    eq_refl eq_refl)
             (session_body "A1" "R1" "U1") (VStr "A1") (VStr "R1"));
      reflexivity.
  - apply (proj2 (C3_refresh_answer returning
                    (at_seconds 20000 [(Some (error_response 403), 7)])
                    (error_response 403) 7 [] eq_refl eq_refl)).
    intros H. discriminate H.
Defined.

(** ** The polling login flow *)

(** An unauthenticated client that passes the configuration guard and
    gets a 200 answer to its login request enters the loop with 60 tries. *)
Lemma login_reaches_polling (c : TgtgClient) (w : world) (first : response)
      (dt0 : Z) (lb : value) (rest0 : list (option response * Z)) :
  _already_logged c = false ->
  may_request_login c = true ->
  status_code first = HTTP_OK ->
  json first = Some lb ->
  script w = (Some first, dt0) :: rest0 ->
  _login c w =
  poll_loop 60 lb c
    (mkWorld (clock w + dt0) rest0
       (trace w ++
        [EvPost (_get_url c LOGIN_ENDPOINT) (_headers c)
           (VDict [("device_type", VStr "ANDROID"); ("email", email c)]%string)
           (proxies c) (timeout c)])).
Proof.
  intros Hl Hm H200 Hj Hs.
  unfold may_request_login in Hm. apply negb_true_iff in Hm.
  unfold _login. unfold bind at 1. unfold self at 1. rewrite Hl, Hm.
  unfold bind at 1. unfold requests_post. rewrite Hs, H200.
  change (HTTP_OK =? HTTP_OK) with true. cbv iota.
  unfold bind, response_json. rewrite Hj. reflexivity.
Qed.

(** Every 202 costs one try, one poll call and one sleep of 10 seconds,
    and leaves the client alone. *)
Lemma poll_loop_pending (rs : list (response * Z)) :
  forall (n : nat) (lr pid : value) (c : TgtgClient) (w : world)
         (rest : list (option response * Z)),
  getitem lr "polling_id" = Ok pid ->
  all_accepted rs = true ->
  script w = answers rs ++ rest ->
  exists w1,
    poll_loop (List.length rs + n) lr c w = poll_loop n lr c w1 /\
    script w1 = rest /\
    count (is_post_to (poll_url c)) (trace w1) =
      (count (is_post_to (poll_url c)) (trace w) + List.length rs)%nat /\
    count is_post (trace w1) = (count is_post (trace w) + List.length rs)%nat /\
    count is_store (trace w1) = count is_store (trace w) /\
    slept (trace w1) = slept (trace w) + 10 * Z.of_nat (List.length rs).
Proof.
  induction rs as [|[r dt] rs IH]; intros n lr pid c w rest Hp Ha Hs.
  - exists w. cbn in *. repeat split; try lia. exact Hs.
  - cbn in Ha. apply andb_prop in Ha. destruct Ha as [Hr Ha].
    apply Z.eqb_eq in Hr.
    cbn [List.length Nat.add]. unfold poll_loop; fold poll_loop.
    unfold bind at 1. unfold self at 1. unfold bind at 1. unfold lift at 1.
    rewrite Hp. unfold bind at 1. unfold requests_post at 1. rewrite Hs.
    cbn [answers map app fst snd]. rewrite Hr.
    change (HTTP_ACCEPTED =? HTTP_OK) with false.
    change (HTTP_ACCEPTED =? HTTP_ACCEPTED) with true. cbv iota.
    unfold bind at 1. unfold print, emit. unfold bind at 1. unfold sleep.
    cbn [clock script trace].
    match goal with
    | |- exists _, poll_loop _ _ _ ?w0 = _ /\ _ =>
        destruct (IH n lr pid c w0 rest Hp Ha eq_refl)
          as (w1 & E & Hs1 & H1 & H2 & H3 & H4)
    end.
    exists w1. cbn [trace] in *.
    rewrite !count_snoc in H1, H2, H3. rewrite !slept_snoc in H4.
    cbn [is_post_to is_post is_store slept_of] in *.
    change (_get_url c AUTH_ENDPOINT) with (poll_url c) in H1.
    rewrite poll_url_refl in H1.
    repeat split; try assumption; lia.
Qed.

(** One round of the loop on a 200 answer, up to the user id. *)
Lemma poll_loop_answered (m : nat) (lr pid : value) (c : TgtgClient) (w : world)
      (final : response) (dt : Z) (body a rt : value)
      (rest : list (option response * Z)) :
  getitem lr "polling_id" = Ok pid ->
  status_code final = HTTP_OK ->
  json final = Some body ->
  getitem body "access_token" = Ok a ->
  getitem body "refresh_token" = Ok rt ->
  script w = (Some final, dt) :: rest ->
  poll_loop (S m) lr c w =
  (u <- lift (startup_user_id body) ;;
   assign (with_user_id u) ;;;
   call_store_function)
    (with_last_time_token_refreshed (Some (clock w + dt))
       (with_refresh_token rt (with_access_token a c)))
    (mkWorld (clock w + dt) rest
       (trace w ++
        [EvPost (poll_url c) (_headers c)
           (VDict [("device_type", VStr "ANDROID"); ("email", email c);
                   ("request_polling_id", pid)]%string)
           (proxies c) (timeout c)])).
Proof.
  intros Hp H200 Hj Ha Hr Hs.
  unfold poll_loop; fold poll_loop.
  unfold bind at 1. unfold self at 1. unfold bind at 1. unfold lift at 1.
  rewrite Hp. unfold bind at 1. unfold requests_post at 1. rewrite Hs, H200.
  change (HTTP_OK =? HTTP_OK) with true. cbv iota.
  unfold bind at 1. unfold response_json. rewrite Hj. unfold ret at 1.
  unfold bind at 1. unfold lift at 1. rewrite Ha.
  unfold bind at 1. unfold assign at 1.
  unfold bind at 1. unfold lift at 1. rewrite Hr.
  unfold bind at 1. unfold assign at 1.
  unfold bind at 1. unfold now at 1.
  unfold bind at 1. unfold assign at 1.
  reflexivity.
Qed.

(** C4: the login request is answered 200 with a [polling_id]; the poll
    endpoint answers 202 [k < 60] times and then 200 with the two tokens
    and the nested user id.  Then [_login] returns normally after exactly
    [k + 1] poll calls and [k] sleeps of 10 seconds, consumes no answer
    beyond that 200, and holds the three values of that body with
    [last_time_token_refreshed] at the clock. *)
Theorem C4_login_confirmed_after_pending
        (c : TgtgClient) (w : world) (first : response) (dt0 : Z)
        (lb pid : value) (rs : list (response * Z)) (final : response) (dt : Z)
        (body a rt u : value) (rest : list (option response * Z)) :
  _already_logged c = false ->
  may_request_login c = true ->
  status_code first = HTTP_OK ->
  json first = Some lb ->
  getitem lb "polling_id" = Ok pid ->
  (List.length rs < 60)%nat ->
  all_accepted rs = true ->
  status_code final = HTTP_OK ->
  json final = Some body ->
  getitem body "access_token" = Ok a ->
  getitem body "refresh_token" = Ok rt ->
  startup_user_id body = Ok u ->
  script w = (Some first, dt0) :: answers rs ++ (Some final, dt) :: rest ->
  let '(res, c', w') := _login c w in
  res = Ok tt /\
  credentials c' = (a, rt, u, Some (clock w')) /\
  count (is_post_to (poll_url c)) (trace w') =
    (count (is_post_to (poll_url c)) (trace w) + List.length rs + 1)%nat /\
  slept (trace w') = slept (trace w) + 10 * Z.of_nat (List.length rs) /\
  count is_store (trace w') =
    (count is_store (trace w) + if store_function c then 1 else 0)%nat /\
  script w' = rest.
Proof.
  intros Hl Hm H1 Hj1 Hp Hk Hacc H2 Hj2 Ha Hr Hu Hs.
  rewrite (login_reaches_polling c w first dt0 lb _ Hl Hm H1 Hj1 Hs).
  replace 60%nat with (List.length rs + S (59 - List.length rs))%nat by lia.
  match goal with
  | |- context [poll_loop _ _ _ ?w0] =>
      destruct (poll_loop_pending rs (S (59 - List.length rs)) lb pid c w0
                  ((Some final, dt) :: rest) Hp Hacc eq_refl)
        as (w1 & E & Hs1 & C1 & C2 & C3 & C4)
  end.
  rewrite E.
  rewrite (poll_loop_answered _ lb pid c w1 final dt body a rt rest
             Hp H2 Hj2 Ha Hr Hs1).
  unfold bind at 1. unfold lift at 1. rewrite Hu.
  unfold bind at 1. unfold assign at 1.
  unfold call_store_function, bind, self.
  cbn [store_function with_user_id with_last_time_token_refreshed
       with_refresh_token with_access_token trace] in *.
  rewrite !count_snoc in C1, C2, C3. rewrite slept_snoc in C4.
  cbn [is_post_to is_post is_store slept_of] in *.
  rewrite poll_url_not_login in C1.
  destruct (store_function c); cbn [emit ret clock script trace];
    rewrite ?count_snoc, ?slept_snoc;
    cbn [is_post_to is_post is_store slept_of];
    rewrite ?poll_url_refl;
    repeat split; try reflexivity; lia.
Qed.

Lemma C4_login_confirmed_after_pending_witness :
  let '(res, c', w') :=
    _login newcomer
      (at_seconds 100
         ((Some polling_answer, 0)
          :: answers (still_pending 3)
          ++ [(Some (ok_response (session_body "A1" "R1" "U1")), 0)])) in
  res = Ok tt /\
  credentials c' = (VStr "A1", VStr "R1", VStr "U1", Some (clock w')) /\
  count (is_post_to (poll_url newcomer)) (trace w') = 4%nat /\
  slept (trace w') = 30 /\
  count is_store (trace w') = 1%nat /\
  script w' = [].
Proof.
  apply (C4_login_confirmed_after_pending newcomer
           (at_seconds 100
              ((Some polling_answer, 0)
               :: answers (still_pending 3)
               ++ [(Some (ok_response (session_body "A1" "R1" "U1")), 0)]))
           polling_answer 0 (VDict [("polling_id"%string, VStr "P1")]) (VStr "P1")
           (still_pending 3) (ok_response (session_body "A1" "R1" "U1")) 0
           (session_body "A1" "R1" "U1") (VStr "A1") (VStr "R1") (VStr "U1") []);
    try reflexivity.
  cbn. lia.
Defined.

(** C5: the login request is answered 200 with a [polling_id] and the
    poll endpoint answers 202 sixty times.  Then [_login] returns
    normally after exactly 60 poll calls and leaves the client, hence all
    four credential fields, as it found it. *)
Theorem C5_sixty_pending_answers
        (c : TgtgClient) (w : world) (first : response) (dt0 : Z)
        (lb pid : value) (rs : list (response * Z))
        (rest : list (option response * Z)) :
  _already_logged c = false ->
  may_request_login c = true ->
  status_code first = HTTP_OK ->
  json first = Some lb ->
  getitem lb "polling_id" = Ok pid ->
  List.length rs = 60%nat ->
  all_accepted rs = true ->
  script w = (Some first, dt0) :: answers rs ++ rest ->
  let '(res, c', w') := _login c w in
  res = Ok tt /\
  c' = c /\
  count (is_post_to (poll_url c)) (trace w') =
    (count (is_post_to (poll_url c)) (trace w) + 60)%nat /\
  slept (trace w') = slept (trace w) + 600 /\
  count is_store (trace w') = count is_store (trace w) /\
  script w' = rest.
Proof.
  intros Hl Hm H1 Hj1 Hp Hk Hacc Hs.
  rewrite (login_reaches_polling c w first dt0 lb _ Hl Hm H1 Hj1 Hs).
  replace 60%nat with (List.length rs + 0)%nat by lia.
  match goal with
  | |- context [poll_loop _ _ _ ?w0] =>
      destruct (poll_loop_pending rs 0 lb pid c w0 rest Hp Hacc eq_refl)
        as (w1 & E & Hs1 & C1 & C2 & C3 & C4)
  end.
  rewrite E. unfold poll_loop, ret. cbn [trace] in *.
  rewrite !count_snoc in C1, C2, C3. rewrite slept_snoc in C4.
  cbn [is_post_to is_post is_store slept_of] in *.
  rewrite poll_url_not_login in C1.
  repeat split; try assumption; lia.
Qed.

Lemma C5_sixty_pending_answers_witness :
  let '(res, c', w') :=
    _login newcomer
      (at_seconds 100 ((Some polling_answer, 0) :: answers (still_pending 60) ++ [])) in
  res = Ok tt /\
  c' = newcomer /\
  count (is_post_to (poll_url newcomer)) (trace w') = 60%nat /\
  slept (trace w') = 600 /\
  count is_store (trace w') = 0%nat /\
  script w' = [].
Proof.
  apply (C5_sixty_pending_answers newcomer
           (at_seconds 100
              ((Some polling_answer, 0) :: answers (still_pending 60) ++ []))
           polling_answer 0 (VDict [("polling_id"%string, VStr "P1")]) (VStr "P1")
           (still_pending 60) []);
    reflexivity.
Defined.

(** C9: as in C4, but the body of the final 200 has the two tokens and
    misses a key on the way to [startup_data.user.user_id].  Then [_login]
    raises the [KeyError] of that key with [access_token],
    [refresh_token] and [last_time_token_refreshed] already overwritten,
    [user_id] still at its prior value and the store function not called. *)
Theorem C9_user_id_missing_leaves_mixed_state
        (c : TgtgClient) (w : world) (first : response) (dt0 : Z)
        (lb pid : value) (rs : list (response * Z)) (final : response) (dt : Z)
        (body a rt : value) (key : string) (rest : list (option response * Z)) :
  _already_logged c = false ->
  may_request_login c = true ->
  status_code first = HTTP_OK ->
  json first = Some lb ->
  getitem lb "polling_id" = Ok pid ->
  (List.length rs < 60)%nat ->
  all_accepted rs = true ->
  status_code final = HTTP_OK ->
  json final = Some body ->
  getitem body "access_token" = Ok a ->
  getitem body "refresh_token" = Ok rt ->
  startup_user_id body = Raise (KeyError key) ->
  script w = (Some first, dt0) :: answers rs ++ (Some final, dt) :: rest ->
  let '(res, c', w') := _login c w in
  res = Raise (KeyError key) /\
  credentials c' = (a, rt, user_id c, Some (clock w')) /\
  count is_store (trace w') = count is_store (trace w).
Proof.
  intros Hl Hm H1 Hj1 Hp Hk Hacc H2 Hj2 Ha Hr Hu Hs.
  rewrite (login_reaches_polling c w first dt0 lb _ Hl Hm H1 Hj1 Hs).
  replace 60%nat with (List.length rs + S (59 - List.length rs))%nat by lia.
  match goal with
  | |- context [poll_loop _ _ _ ?w0] =>
      destruct (poll_loop_pending rs (S (59 - List.length rs)) lb pid c w0
                  ((Some final, dt) :: rest) Hp Hacc eq_refl)
        as (w1 & E & Hs1 & C1 & C2 & C3 & C4)
  end.
  rewrite E.
  rewrite (poll_loop_answered _ lb pid c w1 final dt body a rt rest
             Hp H2 Hj2 Ha Hr Hs1).
  unfold bind at 1. unfold lift at 1. rewrite Hu.
  cbn [trace clock] in *.
  rewrite !count_snoc in *. cbn [is_store] in *.
  repeat split; try reflexivity; lia.
Qed.

Lemma C9_user_id_missing_leaves_mixed_state_witness :
  let '(res, c', w') :=
    _login newcomer
      (at_seconds 100
         ((Some polling_answer, 0)
          :: answers (still_pending 1)
          ++ [(Some (ok_response no_user_id_body), 0)])) in
  res = Raise (KeyError "user_id") /\
  credentials c' = (VStr "A1", VStr "R1", VNone, Some (clock w')) /\
  count is_store (trace w') = 0%nat.
Proof.
  apply (C9_user_id_missing_leaves_mixed_state newcomer
           (at_seconds 100
              ((Some polling_answer, 0)
               :: answers (still_pending 1)
               ++ [(Some (ok_response no_user_id_body), 0)]))
           polling_answer 0 (VDict [("polling_id"%string, VStr "P1")]) (VStr "P1")
           (still_pending 1) (ok_response no_user_id_body) 0
           no_user_id_body (VStr "A1") (VStr "R1") "user_id" []);
    try reflexivity.
  cbn. lia.
Defined.

(** ** Listing items *)

(** C8: for a logged-in client whose token is no older than its
    lifetime, [get_items] makes one call; on 200 it returns the [items]
    entry of the body as it is, on any other status it raises
    [TgtgAPIError] with that status and the raw body; the client is the
    same afterwards in both cases. *)
Theorem C8_get_items_answer (a : get_items_args) (c : TgtgClient) (w : world)
        (t0 : datetime) (r : response) (dt : Z)
        (rest : list (option response * Z)) :
  _already_logged c = true ->
  last_time_token_refreshed c = Some t0 ->
  0 <= clock w - t0 <= access_token_lifetime c * usec_per_sec ->
  script w = (Some r, dt) :: rest ->
  (forall body items,
     status_code r = HTTP_OK ->
     json r = Some body ->
     getitem body "items" = Ok items ->
     let '(res, c', w') := get_items a c w in
     res = Ok items /\ c' = c /\
     count is_post (trace w') = (count is_post (trace w) + 1)%nat)
  /\
  (status_code r <> HTTP_OK ->
   let '(res, c', w') := get_items a c w in
   res = Raise (TgtgAPIError (status_code r) (content r)) /\ c' = c /\
   count is_post (trace w') = (count is_post (trace w) + 1)%nat).
Proof.
  intros Hl Ht Hin Hs.
  pose proof (token_fresh_within_lifetime c (clock w) t0 Ht Hin) as Hf.
  split.
  - intros body items H200 Hj Hi.
    unfold get_items. unfold bind at 1. rewrite (login_skipped c w Hl Hf).
    unfold bind at 1. unfold self at 1.
    unfold bind at 1. unfold requests_post. rewrite Hs, H200.
    change (HTTP_OK =? HTTP_OK) with true. cbv iota.
    unfold bind, response_json, lift. rewrite Hj. unfold ret. rewrite Hi.
    cbn [trace].
    rewrite count_snoc. cbn [is_post]. repeat split; lia.
  - intros Hn.
    unfold get_items. unfold bind at 1. rewrite (login_skipped c w Hl Hf).
    unfold bind at 1. unfold self at 1.
    unfold bind at 1. unfold requests_post. rewrite Hs.
    apply Z.eqb_neq in Hn. rewrite Hn. cbn [raise trace].
    rewrite count_snoc. cbn [is_post]. repeat split; lia.
Qed.

Lemma C8_get_items_answer_witness :
  (let '(res, c', w') :=
     get_items get_items_defaults returning
       (at_seconds 14400
          [(Some (ok_response
                    (VDict [("items"%string,
                             VList [VDict [("item_id"%string, VStr "42")]])])), 0)]) in
   res = Ok (VList [VDict [("item_id"%string, VStr "42")]]) /\ c' = returning /\
   count is_post (trace w') = 1%nat)
  /\
  (let '(res, c', w') :=
     get_items get_items_defaults returning
       (at_seconds 14400 [(Some (error_response 500), 0)]) in
   res = Raise (TgtgAPIError 500 "oops") /\ c' = returning /\
   count is_post (trace w') = 1%nat).
Proof.
  split.
  - apply (proj1 (C8_get_items_answer get_items_defaults returning
                    (at_seconds 14400
                       [(Some (ok_response
                                 (VDict [("items"%string,
                                          VList [VDict [("item_id"%string,
                                                         VStr "42")]])])), 0)])
                    0 _ 0 [] eq_refl eq_refl
                    ltac:(split; vm_compute; discriminate) eq_refl)
             (VDict [("items"%string,
                      VList [VDict [("item_id"%string, VStr "42")]])])
             (VList [VDict [("item_id"%string, VStr "42")]]));
      reflexivity.
  - apply (proj2 (C8_get_items_answer get_items_defaults returning
                    (at_seconds 14400 [(Some (error_response 500), 0)])
                    0 _ 0 [] eq_refl eq_refl
                    ltac:(split; vm_compute; discriminate) eq_refl)).
    intros H. discriminate H.
Defined.

(** ** The store function *)

(** C6, at the input where the code departs from the claim: a client
    with a store function signs up, the server answers 200 with a full
    session, the four credential fields are set from it, and the store
    function is not called: [signup_by_email] has no such call, unlike
    [_refresh_token] and [_login], which make it right after the same
    assignments. *)
Theorem C6_signup_does_not_store :
  store_function newcomer = true /\
  let '(res, c', w') :=
    signup_by_email signup_sample newcomer
      (at_seconds 5 [(Some (ok_response (session_body "A1" "R1" "U1")), 0)]) in
  res = Ok c' /\
  credentials c' = (VStr "A1", VStr "R1", VStr "U1", Some (clock w')) /\
  count is_post (trace w') = 1%nat /\
  count is_store (trace w') = 0%nat.
Proof.
  vm_compute. repeat split; reflexivity.
Qed.

(** ** The three token fields move together, or almost *)

Ltac unfold_monad :=
  repeat (progress unfold void, bind, self, lift, assign, now, requests_post,
            response_json, call_store_function, print, emit, sleep, ret, raise);
  cbv beta.

Ltac split_match :=
  match goal with
  | |- context [match ?x with _ => _ end] =>
      lazymatch x with
      | context [match _ with _ => _ end] => fail
      | _ => destruct x eqn:?
      end
  end.

Ltac fields :=
  cbn [access_token refresh_token last_time_token_refreshed user_id
       with_access_token with_refresh_token with_last_time_token_refreshed
       with_user_id].

(** A value that has one key is a dict: asking it for another key can
    only fail with the [KeyError] of that key. *)
Lemma getitem_raise_after_ok (v : value) (k k' : string) (a : value) (e : exn) :
  getitem v k = Ok a -> getitem v k' = Raise e -> e = KeyError k'.
Proof.
  destruct v; cbn; try discriminate.
  intros _. destruct (dict_get k' d); intros H; inversion H. reflexivity.
Qed.

Lemma served_head (w : world) (r : response) (dt : Z)
      (rest : list (option response * Z)) :
  script w = (Some r, dt) :: rest -> served w r.
Proof. intros H. exists dt. rewrite H. left. reflexivity. Qed.

Lemma served_tail (w w' : world) (x : option response * Z) :
  script w = x :: script w' -> forall r, served w' r -> served w r.
Proof. intros H r [dt Hin]. exists dt. rewrite H. right. exact Hin. Qed.

Lemma served_middle (w : world) (pre : list (option response * Z))
      (r : response) (dt : Z) (post : list (option response * Z)) :
  script w = pre ++ (Some r, dt) :: post -> served w r.
Proof.
  intros H. exists dt. rewrite H. apply in_or_app. right. left. reflexivity.
Qed.

Lemma delays_snoc (pre : list (option response * Z)) (x : option response * Z) :
  delays (pre ++ [x]) = delays pre + snd x.
Proof.
  unfold delays. induction pre as [|y pre IH]; cbn; [ lia | rewrite IH; lia ].
Qed.

Lemma token_step_together (w : world) (c : TgtgClient) (res : result unit)
      (c' : TgtgClient) (w' : world) (pre : list (option response * Z))
      (r : response) (dt : Z) (post : list (option response * Z))
      (body : value) (t : datetime) :
  script w = pre ++ (Some r, dt) :: post ->
  (status_code r =? HTTP_OK) = true ->
  json r = Some body ->
  getitem body "access_token" = Ok (access_token c') ->
  getitem body "refresh_token" = Ok (refresh_token c') ->
  last_time_token_refreshed c' = Some t ->
  t = clock w + delays pre + dt
      + (slept (trace w') - slept (trace w)) * usec_per_sec ->
  token_step w c res c' w'.
Proof.
  intros Hs H200 Hj Ha Hr Hl ->. right. left.
  exists pre, r, dt, post, body. apply Z.eqb_eq in H200.
  repeat split; assumption.
Qed.

Lemma token_step_alone (w : world) (c c' : TgtgClient) (w' : world)
      (r : response) (body a : value) (e : exn) :
  served w r ->
  (status_code r =? HTTP_OK) = true ->
  json r = Some body ->
  getitem body "access_token" = Ok a ->
  getitem body "refresh_token" = Raise e ->
  access_token c' = a ->
  refresh_token c' = refresh_token c ->
  last_time_token_refreshed c' = last_time_token_refreshed c ->
  token_step w c (Raise e) c' w'.
Proof.
  intros Hs H200 Hj Ha Hr Ea Er El. right. right.
  pose proof (getitem_raise_after_ok _ _ _ _ _ Ha Hr) as ->.
  exists r, body. apply Z.eqb_eq in H200. subst a.
  repeat split; assumption.
Qed.

(** The clock of the stamp is the clock at which the answer arrived. *)
Ltac arrival :=
  cbn [clock trace]; rewrite ?slept_snoc; cbn [slept_of];
  unfold usec_per_sec in *; cbn [delays fold_right snd]; lia.

Ltac alone :=
  eapply token_step_alone;
  [ eauto using served_head, served_middle | eassumption | eassumption
  | eassumption | eassumption | fields; reflexivity
  | fields; first [ reflexivity | assumption ]
  | fields; first [ reflexivity | assumption ] ].

Lemma refresh_token_step (c : TgtgClient) (w : world) :
  let '(res, c', w') := _refresh_token c w in token_step w c res c' w'.
Proof.
  unfold _refresh_token. unfold_monad.
  repeat (split_match; cbv beta iota); try (left; reflexivity);
    try alone;
    (eapply token_step_together with (pre := []);
     [ cbn [app]; eassumption | eassumption | eassumption
     | fields; eassumption | fields; eassumption | fields; reflexivity
     | arrival ]).
Qed.

Lemma signup_token_step (a : signup_args) (c : TgtgClient) (w : world) :
  let '(res, c', w') := void (signup_by_email a) c w in
  token_step w c res c' w'.
Proof.
  unfold signup_by_email. unfold_monad.
  repeat (split_match; cbv beta iota); try (left; reflexivity);
    try alone;
    (eapply token_step_together with (pre := []);
     [ cbn [app]; eassumption | eassumption | eassumption
     | fields; eassumption | fields; eassumption | fields; reflexivity
     | arrival ]).
Qed.

(** The loop, entered in [(c, w)] after the answers [pre] of the script of
    [w0] were consumed, the tokens being those of [c0]. *)
Lemma poll_loop_token_step (c0 : TgtgClient) (w0 : world) (lr : value) :
  forall (n : nat) (c : TgtgClient) (w : world)
         (pre : list (option response * Z)),
  tokens c = tokens c0 ->
  script w0 = pre ++ script w ->
  clock w =
    clock w0 + delays pre
    + (slept (trace w) - slept (trace w0)) * usec_per_sec ->
  let '(res, c', w') := poll_loop n lr c w in token_step w0 c0 res c' w'.
Proof.
  induction n as [|n IH]; intros c w pre Ht Hpre Hclock.
  - left. exact Ht.
  - unfold tokens in Ht. injection Ht as Ea Er El.
    unfold poll_loop; fold poll_loop. unfold_monad.
    repeat (split_match; cbv beta iota);
      try (left; unfold tokens; congruence);
      try match goal with
          | H : script w = _ |- _ => rewrite H in Hpre
          end;
      try alone;
      try (eapply token_step_together with (pre := pre);
           [ eassumption | eassumption | eassumption
           | fields; eassumption | fields; eassumption | fields; reflexivity
           | arrival ]).
    match goal with
    | H : poll_loop n lr c ?w2 = _ |- _ =>
        pose proof (IH c w2 (pre ++ [(Some r, z)])) as IH'; rewrite H in IH'
    end.
    apply IH'.
    + unfold tokens; congruence.
    + cbn [script]. rewrite <- app_assoc. exact Hpre.
    + rewrite delays_snoc. arrival.
Qed.

Lemma login_token_step (c : TgtgClient) (w : world) :
  let '(res, c', w') := _login c w in token_step w c res c' w'.
Proof.
  unfold _login. unfold bind at 1. unfold self at 1.
  destruct (_already_logged c).
  - apply refresh_token_step.
  - destruct (negb (truthy (access_token c)) && negb (truthy (email c))).
    + left. reflexivity.
    + unfold_monad.
      repeat (split_match; cbv beta iota); try (left; reflexivity).
      match goal with
      | H : poll_loop 60 ?lr c ?w1 = _ |- _ =>
          pose proof (poll_loop_token_step c w lr 60 c w1 [(Some r, z)] eq_refl)
            as P;
          rewrite H in P
      end.
      apply P.
      * cbn [script app]. assumption.
      * arrival.
Qed.

(** After a step that returned, what does not touch the client nor sleeps
    leaves the step as it was. *)
Lemma token_step_goes_on (w : world) (c c' : TgtgClient) (w1 w' : world)
      (res' : result unit) :
  slept (trace w') = slept (trace w1) ->
  token_step w c (Ok tt) c' w1 -> token_step w c res' c' w'.
Proof.
  intros Hsl [H | [H | H]].
  - left. exact H.
  - right. left. unfold assigned_together in *. rewrite Hsl. exact H.
  - destruct H as (r & body & _ & _ & _ & _ & _ & _ & _ & H). discriminate H.
Qed.

(** What follows [_login] in an item operation is one request: it does not
    touch the client and does not sleep. *)
Lemma after_login {A} (rest : M A) (c : TgtgClient) (w : world) :
  one_request rest ->
  let '(res, c', w') := void (_login ;;; rest) c w in token_step w c res c' w'.
Proof.
  intros Hrest. pose proof (login_token_step c w) as L.
  unfold void. unfold bind at 1. unfold bind at 1.
  destruct (_login c w) as [[[[]|e] c1] w1].
  - pose proof (Hrest c1 w1) as R.
    destruct (rest c1 w1) as [[[x|e] c2] w2];
      destruct R as (-> & u & h & b & p & t & Ht);
      unfold ret; apply token_step_goes_on with (w1 := w1);
      try exact L; rewrite Ht, slept_snoc; cbn [slept_of]; lia.
  - exact L.
Qed.

(** C7, refuted as stated: the refresh endpoint answers 200 with a body
    that has [access_token] and no [refresh_token]; [_refresh_token]
    overwrites [access_token], then stops on the [KeyError]:
    [refresh_token] and [last_time_token_refreshed] keep their values, and
    no answer of the server carries the [refresh_token] the client ends
    with. *)
Lemma C7_partial_refresh :
  run OpRefreshToken returning (at_seconds 20000 [(Some lone_access_token, 0)]) =
    (Raise (KeyError "refresh_token"),
     with_access_token (VStr "A1") returning,
     mkWorld (20000 * usec_per_sec) []
       [EvPost (_get_url returning REFRESH_ENDPOINT) (_headers returning)
          (VDict [("refresh_token"%string, VStr "R0")]) VNone VNone;
        EvPrint (VDict [("access_token"%string, VStr "A1")])]) /\
  ~ all_or_nothing OpRefreshToken returning
      (at_seconds 20000 [(Some lone_access_token, 0)]) /\
  tokens (with_access_token (VStr "A1") returning) <> tokens returning /\
  (forall r body,
     served (at_seconds 20000 [(Some lone_access_token, 0)]) r ->
     json r = Some body ->
     getitem body "refresh_token" <>
     Ok (refresh_token (with_access_token (VStr "A1") returning))).
Proof.
  assert (N : forall r body,
             served (at_seconds 20000 [(Some lone_access_token, 0)]) r ->
             json r = Some body ->
             getitem body "refresh_token" <>
             Ok (refresh_token (with_access_token (VStr "A1") returning))).
  { intros r body [dt [Hin | []]] Hj Hr.
    injection Hin as <- _. cbn in Hj. injection Hj as <-.
    vm_compute in Hr. discriminate Hr. }
  split; [ vm_compute; reflexivity | ].
  split; [ | split; [ vm_compute; discriminate | exact N ] ].
  unfold all_or_nothing.
  set (t := run OpRefreshToken returning _). vm_compute in t. subst t.
  cbv beta iota.
  intros [H | (pre & r & dt & post & body & Hs & _ & Hj & _ & Hr & _)].
  - vm_compute in H. discriminate H.
  - apply (N r body); [ | exact Hj | exact Hr ].
    eapply served_middle. exact Hs.
Qed.

(** C7, amended: every operation, in every world, leaves
    [access_token], [refresh_token] and [last_time_token_refreshed] all
    as they were, or has assigned all three from one 200 answer of the
    server (the two tokens are the values of that answer, the time stamp
    is the clock at which it arrived), or, that 200 answer having
    [access_token] and no [refresh_token], has raised [KeyError] after
    assigning [access_token] alone. *)
Theorem C7_tokens_step (o : operation) (c : TgtgClient) (w : world) :
  let '(res, c', w') := run o c w in
  tokens c' = tokens c \/
  assigned_together w c' w' \/
  access_token_alone w c res c'.
Proof.
  change (let '(res, c', w') := run o c w in token_step w c res c' w').
  destruct o; cbn [run].
  - apply refresh_token_step.
  - apply login_token_step.
  - unfold get_items. apply after_login. intros c1 w1.
    unfold_monad. repeat (split_match; cbv beta iota);
      (split; [ reflexivity | do 5 eexists; reflexivity ]).
  - unfold get_item. apply after_login. intros c1 w1.
    unfold_monad. repeat (split_match; cbv beta iota);
      (split; [ reflexivity | do 5 eexists; reflexivity ]).
  - unfold set_favorite. apply after_login. intros c1 w1.
    unfold_monad. repeat (split_match; cbv beta iota);
      (split; [ reflexivity | do 5 eexists; reflexivity ]).
  - apply signup_token_step.
Qed.

(** The time stamp clause bites: a client whose two tokens are those of
    the answer and whose time stamp is still the old one (0, the answer
    having arrived at 20000.000007 s) does not count as assigned
    together. *)
Example kept_stamp_is_not_assigned_together :
  ~ assigned_together
      (at_seconds 20000 [(Some (ok_response (session_body "A1" "R1" "U1")), 7)])
      (with_refresh_token (VStr "R1") (with_access_token (VStr "A1") returning))
      (mkWorld (20000 * usec_per_sec + 7) [] []).
Proof.
  intros (pre & r & dt & post & body & Hs & _ & _ & _ & _ & Hl).
  destruct pre as [|x pre]; cbn in Hs.
  - injection Hs as _ <- _. vm_compute in Hl. discriminate Hl.
  - injection Hs as _ Hs. destruct pre; discriminate Hs.
Qed.

(** * Further properties of the methods *)

(** ** The constructor, again *)

(** X1: when [__init__] returns, the user agent of the client is the
    [user_agent] argument if that is true, and otherwise one of the three
    [USER_AGENTS], whatever the random draw. *)
Theorem X1_init_user_agent (pick : nat) (a : init_args) (c : TgtgClient) :
  __init__ pick a = Ok c ->
  (truthy (arg_user_agent a) = true /\ user_agent c = arg_user_agent a)
  \/
  (truthy (arg_user_agent a) = false /\
   exists s, In s USER_AGENTS /\ user_agent c = VStr s).
Proof.
  unfold __init__. destruct (truthy (arg_password a)); [ discriminate | ].
  intros H. injection H as <-. cbn [user_agent].
  destruct (truthy (arg_user_agent a)).
  - left. split; reflexivity.
  - right. split; [ reflexivity | ].
    exists (nth (pick mod List.length USER_AGENTS) USER_AGENTS ""%string).
    split; [ | reflexivity ].
    apply nth_In. apply Nat.mod_upper_bound. cbn. lia.
Qed.

Lemma X1_init_user_agent_witness :
  (truthy (arg_user_agent restored_args) = true /\
   user_agent restored = arg_user_agent restored_args)
  \/
  (truthy (arg_user_agent restored_args) = false /\
   exists s, In s USER_AGENTS /\ user_agent restored = VStr s).
Proof.
  apply (X1_init_user_agent 7 restored_args restored). reflexivity.
Defined.

(** X2: a client built with a true [access_token] and [user_id] and
    a time stamp no older than the lifetime holds these credentials, and
    its first [_login] makes no request and changes nothing. *)
Theorem X2_restored_session_needs_no_request (pick : nat) (a : init_args)
        (t0 : datetime) (w : world) :
  truthy (arg_password a) = false ->
  truthy (arg_access_token a) = true ->
  truthy (arg_user_id a) = true ->
  arg_last_time_token_refreshed a = Some t0 ->
  0 <= clock w - t0 <= arg_access_token_lifetime a * usec_per_sec ->
  exists c,
    __init__ pick a = Ok c /\
    credentials c =
      (arg_access_token a, arg_refresh_token a, arg_user_id a, Some t0) /\
    _login c w = (Ok tt, c, w).
Proof.
  intros Hp Ha Hu Hl Ht. unfold __init__. rewrite Hp.
  eexists. split; [ reflexivity | ]. split.
  - unfold credentials. cbn. rewrite Hl. reflexivity.
  - apply login_skipped.
    + unfold _already_logged, py_and. cbn. rewrite Ha. exact Hu.
    + apply token_fresh_within_lifetime with (t0 := t0); [ exact Hl | exact Ht ].
Qed.

Lemma X2_restored_session_needs_no_request_witness :
  exists c,
    __init__ 7 restored_args = Ok c /\
    credentials c = (VStr "A0", VStr "R0", VStr "U0", Some 0) /\
    _login c (at_seconds 3600 []) = (Ok tt, c, at_seconds 3600 []).
Proof.
  apply (X2_restored_session_needs_no_request 7 restored_args 0 (at_seconds 3600 []));
    try reflexivity.
  split; vm_compute; discriminate.
Defined.

(** ** Failures of the polling login flow *)

(** X3: when the login endpoint answers anything but 200, [_login]
    raises [TgtgLoginError] with that status and the raw body after this
    one request: nothing is polled, the client is the same. *)
Theorem X3_login_request_rejected (c : TgtgClient) (w : world) (first : response)
        (dt : Z) (rest : list (option response * Z)) :
  _already_logged c = false ->
  may_request_login c = true ->
  script w = (Some first, dt) :: rest ->
  status_code first <> HTTP_OK ->
  _login c w =
  (Raise (TgtgLoginError (status_code first) (content first)), c,
   mkWorld (clock w + dt) rest
     (trace w ++
      [EvPost (login_url c) (_headers c)
         (VDict [("device_type", VStr "ANDROID"); ("email", email c)]%string)
         (proxies c) (timeout c)])).
Proof.
  intros Hl Hm Hs Hn.
  unfold may_request_login in Hm. apply negb_true_iff in Hm.
  unfold _login. unfold bind at 1. unfold self at 1. rewrite Hl, Hm.
  unfold bind at 1. unfold requests_post. rewrite Hs.
  apply Z.eqb_neq in Hn. rewrite Hn. reflexivity.
Qed.

Lemma X3_login_request_rejected_witness :
  _login newcomer (at_seconds 0 [(Some (error_response 429), 3)]) =
  (Raise (TgtgLoginError 429 "oops"), newcomer,
   mkWorld 3 []
     [EvPost (login_url newcomer) (_headers newcomer)
        (VDict [("device_type", VStr "ANDROID");
                ("email", VStr "me@example.org")]%string)
        VNone VNone]).
Proof.
  apply (X3_login_request_rejected newcomer
           (at_seconds 0 [(Some (error_response 429), 3)])
           (error_response 429) 3 []); try reflexivity.
  intros H. discriminate H.
Defined.

(** X4: when the login endpoint answers 200 with a body from which
    [polling_id] cannot be read, [_login] raises the error of that lookup
    before any poll request: the log holds the login request only, the
    next answer is not consumed and the client is the same. *)
Theorem X4_login_answer_without_polling_id (c : TgtgClient) (w : world)
        (first : response) (dt : Z) (lb : value) (e : exn)
        (rest : list (option response * Z)) :
  _already_logged c = false ->
  may_request_login c = true ->
  script w = (Some first, dt) :: rest ->
  status_code first = HTTP_OK ->
  json first = Some lb ->
  getitem lb "polling_id" = Raise e ->
  _login c w =
  (Raise e, c,
   mkWorld (clock w + dt) rest
     (trace w ++
      [EvPost (login_url c) (_headers c)
         (VDict [("device_type", VStr "ANDROID"); ("email", email c)]%string)
         (proxies c) (timeout c)])).
Proof.
  intros Hl Hm Hs H200 Hj He.
  rewrite (login_reaches_polling c w first dt lb rest Hl Hm H200 Hj Hs).
  unfold poll_loop. unfold bind at 1. unfold self at 1.
  unfold bind at 1. unfold lift at 1. rewrite He. reflexivity.
Qed.

Lemma X4_login_answer_without_polling_id_witness :
  _login newcomer
    (at_seconds 0 [(Some (ok_response (VDict [])), 3);
                   (Some (ok_response (session_body "A1" "R1" "U1")), 0)]) =
  (Raise (KeyError "polling_id"), newcomer,
   mkWorld 3 [(Some (ok_response (session_body "A1" "R1" "U1")), 0)]
     [EvPost (login_url newcomer) (_headers newcomer)
        (VDict [("device_type", VStr "ANDROID");
                ("email", VStr "me@example.org")]%string)
        VNone VNone]).
Proof.
  apply (X4_login_answer_without_polling_id newcomer
           (at_seconds 0 [(Some (ok_response (VDict [])), 3);
                          (Some (ok_response (session_body "A1" "R1" "U1")), 0)])
           (ok_response (VDict [])) 3 (VDict []) (KeyError "polling_id")
           [(Some (ok_response (session_body "A1" "R1" "U1")), 0)]);
    reflexivity.
Defined.

(** X5: when the poll endpoint, after [k < 60] answers 202, answers
    with a status that is neither 200 nor 202, [_login] raises
    [TgtgLoginError] with that status and body after [k + 1] poll calls
    and [k] sleeps, without a call of the store function, and the client
    is the same. *)
Theorem X5_poll_rejected
        (c : TgtgClient) (w : world) (first : response) (dt0 : Z)
        (lb pid : value) (rs : list (response * Z)) (final : response) (dt : Z)
        (rest : list (option response * Z)) :
  _already_logged c = false ->
  may_request_login c = true ->
  status_code first = HTTP_OK ->
  json first = Some lb ->
  getitem lb "polling_id" = Ok pid ->
  (List.length rs < 60)%nat ->
  all_accepted rs = true ->
  status_code final <> HTTP_OK ->
  status_code final <> HTTP_ACCEPTED ->
  script w = (Some first, dt0) :: answers rs ++ (Some final, dt) :: rest ->
  let '(res, c', w') := _login c w in
  res = Raise (TgtgLoginError (status_code final) (content final)) /\
  c' = c /\
  count (is_post_to (poll_url c)) (trace w') =
    (count (is_post_to (poll_url c)) (trace w) + List.length rs + 1)%nat /\
  slept (trace w') = slept (trace w) + 10 * Z.of_nat (List.length rs) /\
  count is_store (trace w') = count is_store (trace w) /\
  script w' = rest.
Proof.
  intros Hl Hm H1 Hj1 Hp Hk Hacc Hn1 Hn2 Hs.
  rewrite (login_reaches_polling c w first dt0 lb _ Hl Hm H1 Hj1 Hs).
  replace 60%nat with (List.length rs + S (59 - List.length rs))%nat by lia.
  match goal with
  | |- context [poll_loop _ _ _ ?w0] =>
      destruct (poll_loop_pending rs (S (59 - List.length rs)) lb pid c w0
                  ((Some final, dt) :: rest) Hp Hacc eq_refl)
        as (w1 & E & Hs1 & C1 & C2 & C3 & C4)
  end.
  rewrite E.
  unfold poll_loop; fold poll_loop.
  unfold bind at 1. unfold self at 1. unfold bind at 1. unfold lift at 1.
  rewrite Hp. unfold bind at 1. unfold requests_post at 1. rewrite Hs1.
  apply Z.eqb_neq in Hn1, Hn2. rewrite Hn1, Hn2.
  cbn [raise trace] in *.
  rewrite !count_snoc in *. rewrite slept_snoc in *.
  cbn [is_post_to is_post is_store slept_of] in *.
  rewrite poll_url_not_login in C1.
  change (_get_url c AUTH_ENDPOINT) with (poll_url c).
  rewrite poll_url_refl.
  repeat split; try reflexivity; lia.
Qed.

Lemma X5_poll_rejected_witness :
  let '(res, c', w') :=
    _login newcomer
      (at_seconds 100
         ((Some polling_answer, 0)
          :: answers (still_pending 2) ++ [(Some (error_response 410), 0)])) in
  res = Raise (TgtgLoginError 410 "oops") /\
  c' = newcomer /\
  count (is_post_to (poll_url newcomer)) (trace w') = 3%nat /\
  slept (trace w') = 20 /\
  count is_store (trace w') = 0%nat /\
  script w' = [].
Proof.
  apply (X5_poll_rejected newcomer
           (at_seconds 100
              ((Some polling_answer, 0)
               :: answers (still_pending 2) ++ [(Some (error_response 410), 0)]))
           polling_answer 0 (VDict [("polling_id"%string, VStr "P1")]) (VStr "P1")
           (still_pending 2) (error_response 410) 0 []);
    try reflexivity; try (intros H; discriminate H).
  cbn. lia.
Defined.

(** ** Item operations on a fresh token *)

(** X6: on a fresh token [get_item] makes one request, to the item
    endpoint joined with [str(item_id)], with the user id and a null
    origin; on 200 it returns the whole decoded body (or fails to decode
    it), on any other status it raises [TgtgAPIError]; the client is the
    same in all cases. *)
Theorem X6_get_item_answer (i : item_id) (c : TgtgClient) (w : world)
        (t0 : datetime) (r : response) (dt : Z)
        (rest : list (option response * Z)) :
  _already_logged c = true ->
  last_time_token_refreshed c = Some t0 ->
  0 <= clock w - t0 <= access_token_lifetime c * usec_per_sec ->
  script w = (Some r, dt) :: rest ->
  let w1 :=
    mkWorld (clock w + dt) rest
      (trace w ++
       [EvPost (urljoin (items_url c) (str i)) (_headers c)
          (VDict [("user_id", user_id c); ("origin", VNone)]%string)
          (proxies c) (timeout c)]) in
  (forall body, status_code r = HTTP_OK -> json r = Some body ->
                get_item i c w = (Ok body, c, w1)) /\
  (status_code r = HTTP_OK -> json r = None ->
   get_item i c w = (Raise JSONDecodeError, c, w1)) /\
  (status_code r <> HTTP_OK ->
   get_item i c w =
   (Raise (TgtgAPIError (status_code r) (content r)), c, w1)).
Proof.
  intros Hl Ht Hin Hs w1.
  pose proof (token_fresh_within_lifetime c (clock w) t0 Ht Hin) as Hf.
  assert (E : get_item i c w =
              (if status_code r =? HTTP_OK then response_json r
               else raise (TgtgAPIError (status_code r) (content r))) c w1).
  { unfold get_item. unfold bind at 1. rewrite (login_skipped c w Hl Hf).
    unfold bind at 1. unfold self at 1.
    unfold bind at 1. unfold requests_post. rewrite Hs. reflexivity. }
  rewrite E. repeat split.
  - intros body H200 Hj. rewrite H200. cbn. unfold response_json. rewrite Hj.
    reflexivity.
  - intros H200 Hj. rewrite H200. cbn. unfold response_json. rewrite Hj.
    reflexivity.
  - intros Hn. apply Z.eqb_neq in Hn. rewrite Hn. reflexivity.
Qed.

Lemma X6_get_item_answer_witness :
  get_item (IdInt 42) returning
    (at_seconds 60 [(Some (ok_response items_body), 0)]) =
  (Ok items_body, returning,
   mkWorld (60 * usec_per_sec) []
     [EvPost (urljoin (items_url returning) "42") (_headers returning)
        (VDict [("user_id", VStr "U0"); ("origin", VNone)]%string)
        VNone VNone])
  /\
  get_item (IdInt 42) returning
    (at_seconds 60 [(Some (error_response 404), 0)]) =
  (Raise (TgtgAPIError 404 "oops"), returning,
   mkWorld (60 * usec_per_sec) []
     [EvPost (urljoin (items_url returning) "42") (_headers returning)
        (VDict [("user_id", VStr "U0"); ("origin", VNone)]%string)
        VNone VNone]).
Proof.
  split.
  - apply (proj1 (X6_get_item_answer (IdInt 42) returning
                    (at_seconds 60 [(Some (ok_response items_body), 0)])
                    0 (ok_response items_body) 0 [] eq_refl eq_refl
                    ltac:(split; vm_compute; discriminate) eq_refl)
             items_body); reflexivity.
  - apply (proj2 (proj2 (X6_get_item_answer (IdInt 42) returning
                    (at_seconds 60 [(Some (error_response 404), 0)])
                    0 (error_response 404) 0 [] eq_refl eq_refl
                    ltac:(split; vm_compute; discriminate) eq_refl))).
    intros H. discriminate H.
Defined.

(** X7: on a fresh token [set_favorite] makes one request, to
    [<item_id>/setFavorite] under the item endpoint; it returns on 200
    without reading the body and raises [TgtgAPIError] on any other
    status, 2xx included; the client is the same in both cases. *)
Theorem X7_set_favorite_answer (i : item_id) (f : value) (c : TgtgClient)
        (w : world) (t0 : datetime) (r : response) (dt : Z)
        (rest : list (option response * Z)) :
  _already_logged c = true ->
  last_time_token_refreshed c = Some t0 ->
  0 <= clock w - t0 <= access_token_lifetime c * usec_per_sec ->
  script w = (Some r, dt) :: rest ->
  let w1 :=
    mkWorld (clock w + dt) rest
      (trace w ++
       [EvPost (urljoin (items_url c) (str i ++ "/setFavorite")) (_headers c)
          (VDict [("is_favorite"%string, f)]) (proxies c) (timeout c)]) in
  (status_code r = HTTP_OK -> set_favorite i f c w = (Ok tt, c, w1)) /\
  (status_code r <> HTTP_OK ->
   set_favorite i f c w =
   (Raise (TgtgAPIError (status_code r) (content r)), c, w1)).
Proof.
  intros Hl Ht Hin Hs w1.
  pose proof (token_fresh_within_lifetime c (clock w) t0 Ht Hin) as Hf.
  assert (E : set_favorite i f c w =
              (if negb (status_code r =? HTTP_OK)
               then raise (TgtgAPIError (status_code r) (content r))
               else ret tt) c w1).
  { unfold set_favorite. unfold bind at 1. rewrite (login_skipped c w Hl Hf).
    unfold bind at 1. unfold self at 1.
    unfold bind at 1. unfold requests_post. rewrite Hs. reflexivity. }
  rewrite E. split.
  - intros H200. rewrite H200. reflexivity.
  - intros Hn. apply Z.eqb_neq in Hn. rewrite Hn. reflexivity.
Qed.

Lemma X7_set_favorite_answer_witness :
  set_favorite (IdStr "42") (VBool true) returning
    (at_seconds 60 [(Some pending_response, 0)]) =
  (Raise (TgtgAPIError 202 ""), returning,
   mkWorld (60 * usec_per_sec) []
     [EvPost (urljoin (items_url returning) "42/setFavorite")
        (_headers returning) (VDict [("is_favorite"%string, VBool true)])
        VNone VNone])
  /\
  set_favorite (IdStr "42") (VBool true) returning
    (at_seconds 60 [(Some (mkResponse 200 "" None), 0)]) =
  (Ok tt, returning,
   mkWorld (60 * usec_per_sec) []
     [EvPost (urljoin (items_url returning) "42/setFavorite")
        (_headers returning) (VDict [("is_favorite"%string, VBool true)])
        VNone VNone]).
Proof.
  split.
  - apply (proj2 (X7_set_favorite_answer (IdStr "42") (VBool true) returning
                    (at_seconds 60 [(Some pending_response, 0)])
                    0 pending_response 0 [] eq_refl eq_refl
                    ltac:(split; vm_compute; discriminate) eq_refl)).
    intros H. discriminate H.
  - apply (proj1 (X7_set_favorite_answer (IdStr "42") (VBool true) returning
                    (at_seconds 60 [(Some (mkResponse 200 "" None), 0)])
                    0 (mkResponse 200 "" None) 0 [] eq_refl eq_refl
                    ltac:(split; vm_compute; discriminate) eq_refl)).
    reflexivity.
Defined.

(** X8: on a fresh token, a 200 answer to [get_items] whose body
    cannot be decoded, or from which [items] cannot be read, makes
    [get_items] raise that error after its one request, the client being
    the same. *)
Theorem X8_get_items_unusable_answer (a : get_items_args) (c : TgtgClient)
        (w : world) (t0 : datetime) (r : response) (dt : Z)
        (rest : list (option response * Z)) :
  _already_logged c = true ->
  last_time_token_refreshed c = Some t0 ->
  0 <= clock w - t0 <= access_token_lifetime c * usec_per_sec ->
  script w = (Some r, dt) :: rest ->
  status_code r = HTTP_OK ->
  let w1 :=
    mkWorld (clock w + dt) rest
      (trace w ++
       [EvPost (items_url c) (_headers c) (items_query c a)
          (proxies c) (timeout c)]) in
  (json r = None -> get_items a c w = (Raise JSONDecodeError, c, w1)) /\
  (forall body e, json r = Some body -> getitem body "items" = Raise e ->
                  get_items a c w = (Raise e, c, w1)).
Proof.
  intros Hl Ht Hin Hs H200 w1.
  pose proof (token_fresh_within_lifetime c (clock w) t0 Ht Hin) as Hf.
  assert (E : get_items a c w =
              (j <- response_json r ;; lift (getitem j "items")) c w1).
  { unfold get_items. unfold bind at 1. rewrite (login_skipped c w Hl Hf).
    unfold bind at 1. unfold self at 1.
    unfold bind at 1. unfold requests_post. rewrite Hs, H200. reflexivity. }
  rewrite E. split.
  - intros Hj. unfold bind, response_json. rewrite Hj. reflexivity.
  - intros body e Hj He. unfold bind, response_json, lift. rewrite Hj.
    unfold ret. rewrite He. reflexivity.
Qed.

Lemma X8_get_items_unusable_answer_witness :
  get_items get_items_defaults returning
    (at_seconds 60 [(Some (ok_response (VList [])), 0)]) =
  (Raise TypeError, returning,
   mkWorld (60 * usec_per_sec) []
     [EvPost (items_url returning) (_headers returning)
        (items_query returning get_items_defaults) VNone VNone]).
Proof.
  apply (proj2 (X8_get_items_unusable_answer get_items_defaults returning
                  (at_seconds 60 [(Some (ok_response (VList [])), 0)])
                  0 (ok_response (VList [])) 0 [] eq_refl eq_refl
                  ltac:(split; vm_compute; discriminate) eq_refl eq_refl)
           (VList []) TypeError); reflexivity.
Defined.

(** ** Signing up *)

(** X9: whatever the client and the server's answer,
    [signup_by_email] leaves exactly one entry in the log, the request to
    the signup endpoint with the registration document: it does not log
    in first, does not sleep and does not call the store function; it
    keeps the configuration. *)
Theorem X9_signup_single_request (a : signup_args) (c : TgtgClient) (w : world) :
  let '(_, c', w') := signup_by_email a c w in
  trace w' =
    trace w ++
    [EvPost (signup_url c) (_headers c) (signup_query a) (proxies c) (timeout c)]
  /\ config c' = config c.
Proof.
  unfold signup_by_email. unfold_monad.
  repeat (split_match; cbv beta iota); split; reflexivity.
Qed.

(** X10: on 200 with both tokens and the nested user id,
    [signup_by_email] returns the client itself, holding these three
    values and the clock as time stamp; on any other status it raises
    [TgtgAPIError] and the client is the same. *)
Theorem X10_signup_answer (a : signup_args) (c : TgtgClient) (w : world)
        (r : response) (dt : Z) (rest : list (option response * Z)) :
  script w = (Some r, dt) :: rest ->
  (forall body at' rt u,
     status_code r = HTTP_OK ->
     json r = Some body ->
     getitem body "access_token" = Ok at' ->
     getitem body "refresh_token" = Ok rt ->
     startup_user_id body = Ok u ->
     let '(res, c', w') := signup_by_email a c w in
     res = Ok c' /\
     credentials c' = (at', rt, u, Some (clock w')) /\
     clock w' = clock w + dt /\ script w' = rest)
  /\
  (status_code r <> HTTP_OK ->
   let '(res, c', w') := signup_by_email a c w in
   res = Raise (TgtgAPIError (status_code r) (content r)) /\ c' = c /\
   script w' = rest).
Proof.
  intros Hs. split.
  - intros body at' rt u H200 Hj Ha Hr Hu.
    unfold signup_by_email. unfold bind at 1. unfold self at 1.
    unfold bind at 1. unfold requests_post. rewrite Hs, H200.
    change (HTTP_OK =? HTTP_OK) with true. cbv iota.
    unfold_monad. rewrite Hj, Ha, Hr, Hu. cbn. repeat split; reflexivity.
  - intros Hn.
    unfold signup_by_email. unfold bind at 1. unfold self at 1.
    unfold bind at 1. unfold requests_post. rewrite Hs.
    apply Z.eqb_neq in Hn. rewrite Hn. cbn. repeat split; reflexivity.
Qed.

Lemma X10_signup_answer_witness :
  (let '(res, c', w') :=
     signup_by_email signup_sample returning
       (at_seconds 5 [(Some (ok_response (session_body "A1" "R1" "U1")), 2)]) in
   res = Ok c' /\
   credentials c' = (VStr "A1", VStr "R1", VStr "U1", Some (clock w')) /\
   clock w' = 5 * usec_per_sec + 2 /\ script w' = [])
  /\
  (let '(res, c', w') :=
     signup_by_email signup_sample returning
       (at_seconds 5 [(Some (error_response 409), 2)]) in
   res = Raise (TgtgAPIError 409 "oops") /\ c' = returning /\ script w' = []).
Proof.
  split.
  - apply (proj1 (X10_signup_answer signup_sample returning
                    (at_seconds 5
                       [(Some (ok_response (session_body "A1" "R1" "U1")), 2)])
                    (ok_response (session_body "A1" "R1" "U1")) 2 [] eq_refl)
             (session_body "A1" "R1" "U1") (VStr "A1") (VStr "R1") (VStr "U1"));
      reflexivity.
  - apply (proj2 (X10_signup_answer signup_sample returning
                    (at_seconds 5 [(Some (error_response 409), 2)])
                    (error_response 409) 2 [] eq_refl)).
    intros H. discriminate H.
Defined.

(** The [authorization] header is there exactly when the token is true. *)
Lemma header_get_authorization (c : TgtgClient) :
  header_get "authorization" (_headers c) =
  if truthy (access_token c) then Some (Bearer (access_token c)) else None.
Proof. unfold _headers. destruct (truthy (access_token c)); reflexivity. Qed.

(** ** An item operation on an expired token *)

(** X11: when the token of a logged-in client has expired and the
    refresh endpoint answers anything but 200, [get_items], [get_item]
    and [set_favorite] raise the [TgtgAPIError] of the refresh: the item
    endpoint is not called, the next answer is not consumed, the client is
    the same. *)
Theorem X11_failed_refresh_stops_item_call (o : operation) (c : TgtgClient)
        (w : world) (r : response) (dt : Z) (rest : list (option response * Z)) :
  calls_login_first o = true ->
  _already_logged c = true ->
  token_fresh c (clock w) = false ->
  script w = (Some r, dt) :: rest ->
  status_code r <> HTTP_OK ->
  run o c w =
  (Raise (TgtgAPIError (status_code r) (content r)), c,
   mkWorld (clock w + dt) rest
     (trace w ++
      [EvPost (refresh_url c) (_headers c)
         (VDict [("refresh_token"%string, refresh_token c)])
         (proxies c) (timeout c)])).
Proof.
  intros Ho Hl Hf Hs Hn.
  assert (L : _login c w =
              (Raise (TgtgAPIError (status_code r) (content r)), c,
               mkWorld (clock w + dt) rest
                 (trace w ++
                  [EvPost (refresh_url c) (_headers c)
                     (VDict [("refresh_token"%string, refresh_token c)])
                     (proxies c) (timeout c)]))).
  { unfold _login. unfold bind at 1. unfold self at 1. rewrite Hl.
    unfold _refresh_token, bind, self, now, requests_post. rewrite Hf, Hs.
    apply Z.eqb_neq in Hn. rewrite Hn. reflexivity. }
  destruct o; try discriminate Ho; cbn [run];
    unfold void, get_items, get_item, set_favorite;
    unfold bind at 1; unfold bind at 1; rewrite L; reflexivity.
Qed.

Lemma X11_failed_refresh_stops_item_call_witness :
  run (OpGetItems get_items_defaults) returning
    (at_seconds 20000 [(Some (error_response 401), 1);
                       (Some (ok_response items_body), 1)]) =
  (Raise (TgtgAPIError 401 "oops"), returning,
   mkWorld (20000 * usec_per_sec + 1) [(Some (ok_response items_body), 1)]
     [EvPost (refresh_url returning) (_headers returning)
        (VDict [("refresh_token"%string, VStr "R0")]) VNone VNone]).
Proof.
  apply (X11_failed_refresh_stops_item_call (OpGetItems get_items_defaults)
           returning
           (at_seconds 20000 [(Some (error_response 401), 1);
                              (Some (ok_response items_body), 1)])
           (error_response 401) 1 [(Some (ok_response items_body), 1)]);
    try reflexivity.
  intros H. discriminate H.
Defined.

(** X12: when the token of a logged-in client has expired and the
    refresh succeeds, [get_items] makes two requests: the refresh, with
    the headers of the old client, and then the query, whose headers carry
    the new token as bearer and whose document carries the unchanged user
    id; it returns the items and the client holds the new tokens. *)
Theorem X12_get_items_refreshes_expired_token (a : get_items_args)
        (c : TgtgClient) (w : world) (r1 r2 : response) (d1 d2 : Z)
        (body1 at' rt body2 items : value) (rest : list (option response * Z)) :
  _already_logged c = true ->
  token_fresh c (clock w) = false ->
  script w = (Some r1, d1) :: (Some r2, d2) :: rest ->
  status_code r1 = HTTP_OK ->
  json r1 = Some body1 ->
  getitem body1 "access_token" = Ok at' ->
  getitem body1 "refresh_token" = Ok rt ->
  status_code r2 = HTTP_OK ->
  json r2 = Some body2 ->
  getitem body2 "items" = Ok items ->
  let '(res, c', w') := get_items a c w in
  res = Ok items /\
  credentials c' = (at', rt, user_id c, Some (clock w + d1)) /\
  count is_post (trace w') = (count is_post (trace w) + 2)%nat /\
  script w' = rest /\
  exists tr,
    trace w' =
      (trace w ++
       EvPost (refresh_url c) (_headers c)
         (VDict [("refresh_token"%string, refresh_token c)])
         (proxies c) (timeout c) :: tr) ++
      [EvPost (items_url c) (_headers c') (items_query c a)
         (proxies c) (timeout c)] /\
    header_get "authorization" (_headers c') =
      (if truthy at' then Some (Bearer at') else None).
Proof.
  intros Hl Hf Hs H1 Hj1 Ha Hr H2 Hj2 Hi.
  unfold get_items. unfold bind at 1.
  unfold _login. unfold bind at 1. unfold self at 1. rewrite Hl.
  unfold _refresh_token. unfold bind at 1. unfold self at 1.
  unfold bind at 1. unfold now at 1. rewrite Hf.
  unfold bind at 1. unfold requests_post at 1. rewrite Hs, H1.
  change (HTTP_OK =? HTTP_OK) with true. cbv iota.
  unfold_monad. rewrite Hj1, Ha, Hr. cbn [script clock trace].
  destruct (store_function c) eqn:Est;
    cbn [store_function with_last_time_token_refreshed with_refresh_token
         with_access_token];
    rewrite Est; cbn [script clock trace]; rewrite H2;
    change (HTTP_OK =? HTTP_OK) with true; cbv iota; rewrite Hj2, Hi;
    cbn [script clock trace];
    rewrite !count_snoc; cbn [is_post];
    (split; [ reflexivity | ]); (split; [ reflexivity | ]);
    (split; [ lia | ]); (split; [ reflexivity | ]).
  - exists [EvPrint body1; EvStore at' rt (user_id c) (Some (clock w + d1))].
    split.
    + rewrite <- !app_assoc. reflexivity.
    + rewrite header_get_authorization. reflexivity.
  - exists [EvPrint body1]. split.
    + rewrite <- !app_assoc. reflexivity.
    + rewrite header_get_authorization. reflexivity.
Qed.

Lemma X12_get_items_refreshes_expired_token_witness :
  let '(res, c', w') :=
    get_items get_items_defaults returning
      (at_seconds 20000
         [(Some (ok_response (session_body "A1" "R1" "U1")), 1);
          (Some (ok_response items_body), 1)]) in
  res = Ok (VList [VDict [("item_id"%string, VStr "42")]]) /\
  credentials c' = (VStr "A1", VStr "R1", VStr "U0", Some (20000 * usec_per_sec + 1)) /\
  count is_post (trace w') = 2%nat /\
  script w' = [] /\
  exists tr,
    trace w' =
      ([] ++
       EvPost (refresh_url returning) (_headers returning)
         (VDict [("refresh_token"%string, VStr "R0")]) VNone VNone :: tr) ++
      [EvPost (items_url returning) (_headers c')
         (items_query returning get_items_defaults) VNone VNone] /\
    header_get "authorization" (_headers c') = Some (Bearer (VStr "A1")).
Proof.
  apply (X12_get_items_refreshes_expired_token get_items_defaults returning
           (at_seconds 20000
              [(Some (ok_response (session_body "A1" "R1" "U1")), 1);
               (Some (ok_response items_body), 1)])
           (ok_response (session_body "A1" "R1" "U1")) (ok_response items_body)
           1 1 (session_body "A1" "R1" "U1") (VStr "A1") (VStr "R1")
           items_body (VList [VDict [("item_id"%string, VStr "42")]]) []);
    reflexivity.
Defined.

(** ** What every operation keeps *)

Lemma snapshots_app (a b : list event) :
  snapshots (a ++ b) = snapshots a ++ snapshots b.
Proof.
  induction a as [|e a IH]; [ reflexivity | ].
  destruct e; cbn; rewrite IH; reflexivity.
Qed.

Lemma snapshots_snoc (tr : list event) (e : event) :
  snapshots (tr ++ [e]) = snapshots tr ++ snapshots [e].
Proof. apply snapshots_app. Qed.

Lemma within_refl (c : TgtgClient) (w : world) (posts : nat) (secs : Z) :
  0 <= secs -> within posts secs c w c w.
Proof.
  intros H. unfold within, stored_at_most_once.
  repeat split; try lia. left. reflexivity.
Qed.

Ltac log_facts :=
  cbn [trace];
  rewrite ?count_snoc, ?slept_snoc, ?snapshots_snoc;
  cbn [is_post is_store slept_of snapshots];
  rewrite ?app_nil_r.

Ltac within_now :=
  unfold within, stored_at_most_once; log_facts;
  repeat split; try reflexivity; try lia;
  first [ left; reflexivity
        | right; split; [ assumption | reflexivity ] ].

Lemma refresh_within (c : TgtgClient) (w : world) :
  let '(_, c', w') := _refresh_token c w in within 1 0 c w c' w'.
Proof.
  unfold _refresh_token. unfold_monad.
  repeat (split_match; cbv beta iota); within_now.
Qed.

Lemma within_pending_round (n : nat) (c c' : TgtgClient) (w w2 w' : world)
      (e1 e2 : event) :
  is_post e1 = true ->
  (exists v, e2 = EvPrint v) ->
  trace w2 = ((trace w ++ [e1]) ++ [e2]) ++ [EvSleep 10] ->
  within n (10 * Z.of_nat n) c w2 c' w' ->
  within (S n) (10 * Z.of_nat (S n)) c w c' w'.
Proof.
  intros H1 [v ->] Ht (Hc & Hp & Hs & Hst).
  unfold within, stored_at_most_once in *. rewrite Ht in *.
  rewrite !count_snoc, !slept_snoc, !snapshots_snoc in *.
  rewrite H1 in Hp. destruct e1; try discriminate H1.
  cbn [is_post slept_of snapshots] in *.
  rewrite ?app_nil_r in *.
  repeat split; try assumption; lia.
Qed.

Lemma poll_loop_within (lr : value) :
  forall (n : nat) (c : TgtgClient) (w : world),
  let '(_, c', w') := poll_loop n lr c w in
  within n (10 * Z.of_nat n) c w c' w'.
Proof.
  induction n as [|n IH]; intros c w.
  - apply within_refl. lia.
  - unfold poll_loop; fold poll_loop. unfold_monad.
    repeat (split_match; cbv beta iota); try within_now.
    match goal with
    | H : poll_loop n lr c ?w2 = _ |- _ =>
        pose proof (IH c w2) as IH'; rewrite H in IH'
    end.
    eapply within_pending_round; [ | | | exact IH' ]; cycle 2;
      [ cbn [trace]; reflexivity | reflexivity | eexists; reflexivity ].
Qed.

Lemma within_after_post (n : nat) (s : Z) (c c' : TgtgClient) (w w1 w' : world)
      (e : event) :
  is_post e = true ->
  trace w1 = trace w ++ [e] ->
  within n s c w1 c' w' ->
  within (S n) s c w c' w'.
Proof.
  intros H1 Ht (Hc & Hp & Hs & Hst).
  unfold within, stored_at_most_once in *. rewrite Ht in *.
  rewrite !count_snoc, !slept_snoc, !snapshots_snoc in *.
  rewrite H1 in Hp. destruct e; try discriminate H1.
  cbn [is_post slept_of snapshots] in *.
  rewrite ?app_nil_r in *.
  repeat split; try assumption; lia.
Qed.

Lemma within_weaken (n m : nat) (s s' : Z) (c c' : TgtgClient) (w w' : world) :
  (n <= m)%nat -> s <= s' -> within n s c w c' w' -> within m s' c w c' w'.
Proof.
  intros Hn Hs (Hc & Hp & Hsl & Hst). unfold within.
  repeat split; try assumption; lia.
Qed.

Lemma login_within (c : TgtgClient) (w : world) :
  let '(_, c', w') := _login c w in within 61 600 c w c' w'.
Proof.
  unfold _login. unfold bind at 1. unfold self at 1.
  destruct (_already_logged c).
  - pose proof (refresh_within c w) as R.
    destruct (_refresh_token c w) as [[res c'] w'].
    apply within_weaken with (n := 1%nat) (s := 0); [ lia | lia | exact R ].
  - destruct (negb (truthy (access_token c)) && negb (truthy (email c))).
    + apply within_refl. lia.
    + unfold_monad.
      repeat (split_match; cbv beta iota); try within_now.
      match goal with
      | H : poll_loop 60 ?lr c ?w1 = _ |- _ =>
          pose proof (poll_loop_within lr 60 c w1) as P; rewrite H in P
      end.
      eapply within_after_post; [ | | exact P ]; cycle 1;
        [ cbn [trace]; reflexivity | reflexivity ].
Qed.

(** An authenticated client goes through the refresh flow only. *)
Lemma login_within_logged (c : TgtgClient) (w : world) :
  _already_logged c = true ->
  let '(_, c', w') := _login c w in
  within 1 0 c w c' w' /\ user_id c' = user_id c.
Proof.
  intros Hl. unfold _login. unfold bind at 1. unfold self at 1. rewrite Hl.
  pose proof (refresh_within c w) as R.
  destruct (_refresh_token c w) as [[res c'] w'] eqn:E.
  split; [ exact R | ].
  revert E. unfold _refresh_token. unfold_monad.
  repeat (split_match; cbv beta iota); intros E; inversion E; reflexivity.
Qed.

(** An item operation is [_login] and then, if that returned, one request
    that leaves the client alone. *)
Lemma after_login_one_request {A} (rest : M A) (c : TgtgClient) (w : world) :
  one_request rest ->
  match _login c w with
  | (Raise e, c1, w1) => void (_login ;;; rest) c w = (Raise e, c1, w1)
  | (Ok _, c1, w1) =>
      exists res w' u h b p t,
        void (_login ;;; rest) c w = (res, c1, w') /\
        trace w' = trace w1 ++ [EvPost u h b p t]
  end.
Proof.
  intros Hrest. unfold void. unfold bind at 1 3. unfold bind at 1 2.
  destruct (_login c w) as [[[[]|e] c1] w1]; [ | reflexivity ].
  pose proof (Hrest c1 w1) as R.
  destruct (rest c1 w1) as [[[x|e] c2] w2];
    destruct R as (-> & u & h & b & p & t & Ht);
    do 7 eexists; (split; [ reflexivity | exact Ht ]).
Qed.

Lemma item_operation_after_login (o : operation) (c : TgtgClient) (w : world) :
  calls_login_first o = true ->
  match _login c w with
  | (Raise e, c1, w1) => run o c w = (Raise e, c1, w1)
  | (Ok _, c1, w1) =>
      exists res w' u h b p t,
        run o c w = (res, c1, w') /\
        trace w' = trace w1 ++ [EvPost u h b p t]
  end.
Proof.
  intros Ho.
  destruct o; try discriminate Ho; cbn [run];
    unfold get_items, get_item, set_favorite;
    apply after_login_one_request;
    intros c1 w1; unfold_monad;
    repeat (split_match; cbv beta iota);
    (split; [ reflexivity | do 5 eexists; reflexivity ]).
Qed.

Lemma within_before_post (n : nat) (s : Z) (c c' : TgtgClient) (w w1 w' : world)
      (e : event) :
  is_post e = true ->
  trace w' = trace w1 ++ [e] ->
  within n s c w c' w1 ->
  within (S n) s c w c' w'.
Proof.
  intros H1 Ht (Hc & Hp & Hs & Hst).
  unfold within, stored_at_most_once in *. rewrite Ht in *.
  rewrite !count_snoc, !slept_snoc, !snapshots_snoc in *.
  rewrite H1. destruct e; try discriminate H1.
  cbn [is_post slept_of snapshots] in *.
  rewrite ?app_nil_r in *.
  repeat split; try assumption; lia.
Qed.

Lemma signup_within (a : signup_args) (c : TgtgClient) (w : world) :
  let '(_, c', w') := void (signup_by_email a) c w in within 1 0 c w c' w'.
Proof.
  unfold signup_by_email. unfold_monad.
  repeat (split_match; cbv beta iota); within_now.
Qed.

Lemma run_within (o : operation) (c : TgtgClient) (w : world) :
  let '(_, c', w') := run o c w in within 62 600 c w c' w'.
Proof.
  destruct (calls_login_first o) eqn:Ho.
  - pose proof (item_operation_after_login o c w Ho) as I.
    pose proof (login_within c w) as L.
    destruct (_login c w) as [[[[]|e] c1] w1].
    + destruct I as (res & w' & u & h & b & p & t & -> & Ht).
      eapply within_before_post; [ | exact Ht | exact L ]. reflexivity.
    + rewrite I.
      apply within_weaken with (n := 61%nat) (s := 600); [ lia | lia | exact L ].
  - destruct o; try discriminate Ho; cbn [run].
    + pose proof (refresh_within c w) as R.
      destruct (_refresh_token c w) as [[res c'] w'].
      apply within_weaken with (n := 1%nat) (s := 0); [ lia | lia | exact R ].
    + pose proof (login_within c w) as L.
      destruct (_login c w) as [[res c'] w'].
      apply within_weaken with (n := 61%nat) (s := 600); [ lia | lia | exact L ].
    + pose proof (signup_within a c w) as R.
      destruct (void (signup_by_email a) c w) as [[res c'] w'].
      apply within_weaken with (n := 1%nat) (s := 0); [ lia | lia | exact R ].
Qed.

(** X13: no operation, in any world, makes more than 62 requests or
    asks for more than 600 seconds of sleep, and the log only grows. *)
Theorem X13_operation_bounds (o : operation) (c : TgtgClient) (w : world) :
  let '(_, _, w') := run o c w in
  (count is_post (trace w) <= count is_post (trace w')
   <= count is_post (trace w) + 62)%nat /\
  slept (trace w) <= slept (trace w') <= slept (trace w) + 600.
Proof.
  pose proof (run_within o c w) as W.
  destruct (run o c w) as [[res c'] w'].
  destruct W as (_ & Hp & Hs & _). split; assumption.
Qed.

(** X14: no operation, in any world and whether it returns or
    raises, changes the base URL, email, password, lifetime, user agent,
    language, proxies, timeout or store function of the client. *)
Theorem X14_configuration_kept (o : operation) (c : TgtgClient) (w : world) :
  let '(_, c', _) := run o c w in
  base_url c' = base_url c /\ email c' = email c /\
  password c' = password c /\
  access_token_lifetime c' = access_token_lifetime c /\
  user_agent c' = user_agent c /\ language c' = language c /\
  proxies c' = proxies c /\ timeout c' = timeout c /\
  store_function c' = store_function c.
Proof.
  pose proof (run_within o c w) as W.
  destruct (run o c w) as [[res c'] w'].
  destruct W as (Hc & _). unfold config in Hc.
  injection Hc as H1 H2 H3 H4 H5 H6 H7 H8 H9. repeat split; assumption.
Qed.

(** X15: in any world, an operation calls the store function at most
    once, only if there is one, and then with exactly the credentials the
    client holds when the operation ends. *)
Theorem X15_store_called_at_most_once (o : operation) (c : TgtgClient) (w : world) :
  let '(_, c', w') := run o c w in
  snapshots (trace w') = snapshots (trace w) \/
  (store_function c = true /\
   snapshots (trace w') = snapshots (trace w) ++ [credentials c']).
Proof.
  pose proof (run_within o c w) as W.
  destruct (run o c w) as [[res c'] w'].
  destruct W as (_ & _ & _ & Hst). exact Hst.
Qed.

(** X16: a logged-in client never sleeps and never changes its user
    id in any operation but [signup_by_email], and makes at most two
    requests (the refresh and the operation's own). *)
Theorem X16_logged_client_stays_quick (o : operation) (c : TgtgClient) (w : world) :
  not_signup o = true ->
  _already_logged c = true ->
  let '(_, c', w') := run o c w in
  user_id c' = user_id c /\
  slept (trace w') = slept (trace w) /\
  (count is_post (trace w') <= count is_post (trace w) + 2)%nat.
Proof.
  intros Hn Hl.
  pose proof (login_within_logged c w Hl) as L.
  destruct (calls_login_first o) eqn:Ho.
  - pose proof (item_operation_after_login o c w Ho) as I.
    destruct (_login c w) as [[[[]|e] c1] w1].
    + destruct I as (res & w' & u & h & b & p & t & -> & Ht).
      destruct L as ((_ & Hp & Hs & _) & Hu). rewrite Ht.
      rewrite count_snoc, slept_snoc. cbn [is_post slept_of].
      repeat split; [ exact Hu | lia | lia ].
    + rewrite I. destruct L as ((_ & Hp & Hs & _) & Hu).
      repeat split; [ exact Hu | lia | lia ].
  - destruct o; try discriminate Ho; try discriminate Hn; cbn [run].
    + pose proof (refresh_within c w) as R.
      assert (U : let '(_, c', _) := _refresh_token c w in user_id c' = user_id c).
      { unfold _refresh_token. unfold_monad.
        repeat (split_match; cbv beta iota); reflexivity. }
      destruct (_refresh_token c w) as [[res c'] w'].
      destruct R as (_ & Hp & Hs & _). repeat split; [ exact U | lia | lia ].
    + destruct (_login c w) as [[res c'] w'].
      destruct L as ((_ & Hp & Hs & _) & Hu).
      repeat split; [ exact Hu | lia | lia ].
Qed.

Lemma X16_logged_client_stays_quick_witness :
  let '(_, c', w') :=
    run (OpGetItems get_items_defaults) returning renews_then_lists in
  user_id c' = user_id returning /\
  slept (trace w') = slept (trace renews_then_lists) /\
  (count is_post (trace w') <= count is_post (trace renews_then_lists) + 2)%nat.
Proof.
  apply (X16_logged_client_stays_quick (OpGetItems get_items_defaults) returning
           renews_then_lists);
    reflexivity.
Defined.


(** ** Edges of the guard *)

(** The log on the left goes on from the log on the right. *)
Ltac continues_log :=
  first [ exists []; rewrite app_nil_r; reflexivity
        | eexists; reflexivity
        | rewrite <- app_assoc; continues_log ].

(** X17: a logged-in client without [last_time_token_refreshed]
    posts to the refresh endpoint as the first thing [_login] does, at any
    time and whatever the lifetime. *)
Theorem X17_no_timestamp_refreshes (c : TgtgClient) (w : world) :
  _already_logged c = true ->
  last_time_token_refreshed c = None ->
  exists tr,
    trace (snd (_login c w)) =
    (trace w ++
     [EvPost (refresh_url c) (_headers c)
        (VDict [("refresh_token"%string, refresh_token c)])
        (proxies c) (timeout c)]) ++ tr.
Proof.
  intros Hl Hn. unfold _login. unfold bind at 1. unfold self at 1. rewrite Hl.
  unfold _refresh_token. unfold bind at 1. unfold self at 1.
  unfold bind at 1. unfold now at 1.
  unfold token_fresh. rewrite Hn.
  unfold_monad.
  repeat (split_match; cbv beta iota); cbn [snd trace]; continues_log.
Qed.

Lemma X17_no_timestamp_refreshes_witness :
  exists tr,
    trace (snd (_login unstamped (at_seconds 1 []))) =
    (trace (at_seconds 1 []) ++
     [EvPost (refresh_url unstamped) (_headers unstamped)
        (VDict [("refresh_token"%string, refresh_token unstamped)])
        (proxies unstamped) (timeout unstamped)]) ++ tr.
Proof.
  apply (X17_no_timestamp_refreshes unstamped (at_seconds 1 [])); reflexivity.
Defined.

(** X18: with a lifetime of 86399 seconds or more, a logged-in client
    with a time stamp never refreshes: [_login] makes no request at any
    clock reading, the [seconds] field of a timedelta being below 86400. *)
Theorem X18_day_long_lifetime_never_refreshes (c : TgtgClient) (w : world)
        (t0 : datetime) :
  _already_logged c = true ->
  last_time_token_refreshed c = Some t0 ->
  86399 <= access_token_lifetime c ->
  _login c w = (Ok tt, c, w).
Proof.
  intros Hl Ht Hlife. apply login_skipped; [ exact Hl | ].
  unfold token_fresh. rewrite Ht. apply Z.leb_le.
  pose proof (timedelta_normalised (clock w) t0) as [[_ H] _]. lia.
Qed.

Lemma X18_day_long_lifetime_never_refreshes_witness :
  _login patient (at_seconds 8640000 []) = (Ok tt, patient, at_seconds 8640000 []).
Proof.
  apply (X18_day_long_lifetime_never_refreshes patient (at_seconds 8640000 []) 0);
    try reflexivity.
  vm_compute. discriminate.
Defined.

(** ** The refresh flow, again *)

(** X19: after a successful refresh, a second [_refresh_token] at
    any time from the refresh up to the lifetime later makes no request
    and changes nothing. *)
Theorem X19_refresh_then_skip (c : TgtgClient) (w : world) (r : response) (dt : Z)
        (rest : list (option response * Z)) (body a rt : value) (w2 : world) :
  token_fresh c (clock w) = false ->
  script w = (Some r, dt) :: rest ->
  status_code r = HTTP_OK ->
  json r = Some body ->
  getitem body "access_token" = Ok a ->
  getitem body "refresh_token" = Ok rt ->
  0 <= clock w2 - (clock w + dt) <= access_token_lifetime c * usec_per_sec ->
  let '(_, c', _) := _refresh_token c w in
  _refresh_token c' w2 = (Ok tt, c', w2).
Proof.
  intros Hf Hs H200 Hj Ha Hr Hin.
  unfold _refresh_token at 1, bind, self, now, requests_post. rewrite Hf, Hs.
  rewrite H200. cbn -[getitem _refresh_token]. unfold response_json. rewrite Hj.
  cbn -[getitem _refresh_token].
  unfold lift. rewrite Ha. cbn -[getitem _refresh_token]. rewrite Hr.
  cbn -[getitem _refresh_token].
  destruct (store_function c); cbn -[getitem _refresh_token];
    apply refresh_skipped;
    apply token_fresh_within_lifetime with (t0 := clock w + dt);
    try reflexivity; exact Hin.
Qed.

Lemma X19_refresh_then_skip_witness :
  let '(_, c', _) :=
    _refresh_token returning
      (at_seconds 20000 [(Some (ok_response (session_body "A1" "R1" "U1")), 7)]) in
  _refresh_token c' (at_seconds 34000 []) = (Ok tt, c', at_seconds 34000 []).
Proof.
  apply (X19_refresh_then_skip returning
           (at_seconds 20000
              [(Some (ok_response (session_body "A1" "R1" "U1")), 7)])
           (ok_response (session_body "A1" "R1" "U1")) 7 []
           (session_body "A1" "R1" "U1") (VStr "A1") (VStr "R1")
           (at_seconds 34000 []));
    try reflexivity.
  split; vm_compute; discriminate.
Defined.

(** X20: a 200 answer of the refresh endpoint whose body cannot be
    decoded raises [JSONDecodeError]; one whose body (printed first)
    gives no [access_token] raises the error of that lookup; in both cases
    the client is the same. *)
Theorem X20_refresh_unusable_answer (c : TgtgClient) (w : world) (r : response)
        (dt : Z) (rest : list (option response * Z)) :
  token_fresh c (clock w) = false ->
  script w = (Some r, dt) :: rest ->
  status_code r = HTTP_OK ->
  let posted :=
    trace w ++
    [EvPost (refresh_url c) (_headers c)
       (VDict [("refresh_token"%string, refresh_token c)])
       (proxies c) (timeout c)] in
  (json r = None ->
   _refresh_token c w =
   (Raise JSONDecodeError, c, mkWorld (clock w + dt) rest posted))
  /\
  (forall body e,
     json r = Some body ->
     getitem body "access_token" = Raise e ->
     _refresh_token c w =
     (Raise e, c, mkWorld (clock w + dt) rest (posted ++ [EvPrint body]))).
Proof.
  intros Hf Hs H200 posted. split.
  - intros Hj.
    unfold _refresh_token, bind, self, now, requests_post. rewrite Hf, Hs, H200.
    cbn. unfold response_json. rewrite Hj. reflexivity.
  - intros body e Hj He.
    unfold _refresh_token, bind, self, now, requests_post. rewrite Hf, Hs, H200.
    cbn -[getitem]. unfold response_json. rewrite Hj. cbn -[getitem].
    unfold lift. rewrite He. reflexivity.
Qed.

Lemma X20_refresh_unusable_answer_witness :
  _refresh_token returning
    (at_seconds 20000 [(Some (ok_response (VDict [])), 0)]) =
  (Raise (KeyError "access_token"), returning,
   mkWorld (20000 * usec_per_sec + 0) []
     ((trace (at_seconds 20000 [(Some (ok_response (VDict [])), 0)]) ++
       [EvPost (refresh_url returning) (_headers returning)
          (VDict [("refresh_token"%string, refresh_token returning)])
          (proxies returning) (timeout returning)]) ++ [EvPrint (VDict [])])).
Proof.
  apply (proj2 (X20_refresh_unusable_answer returning
                  (at_seconds 20000 [(Some (ok_response (VDict [])), 0)])
                  (ok_response (VDict [])) 0 [] eq_refl eq_refl eq_refl)
           (VDict []) (KeyError "access_token")); reflexivity.
Defined.

(** ** Transport faults *)

(** X22: when the next request meets a transport fault, every
    operation leaves the client as it was, and ends in
    [RequestException], in the [ValueError] of the configuration guard,
    or, for [_refresh_token] and [_login] on a token the guard accepts,
    normally without having made a request. *)
Theorem X22_transport_fault (o : operation) (c : TgtgClient) (w : world) :
  next_request_fails w = true ->
  let '(res, c', w') := run o c w in
  c' = c /\
  (res = Raise RequestException \/
   (exists msg, res = Raise (ValueError msg)) \/
   (res = Ok tt /\ w' = w /\ calls_login_first o = false)).
Proof.
  unfold next_request_fails. intros Hw.
  destruct o; cbn [run calls_login_first];
    unfold get_items, get_item, set_favorite, signup_by_email, _login,
      _refresh_token;
    unfold_monad;
    repeat (split_match; cbv beta iota); try discriminate Hw;
    (split; [ reflexivity | ]);
    first [ left; reflexivity
          | right; left; eexists; reflexivity
          | right; right; repeat split; reflexivity ].
Qed.

Lemma X22_transport_fault_witness :
  let '(res, c', w') :=
    run (OpGetItem (IdInt 42)) returning (at_seconds 60 [(None, 30)]) in
  c' = returning /\
  (res = Raise RequestException \/
   (exists msg, res = Raise (ValueError msg)) \/
   (res = Ok tt /\ w' = at_seconds 60 [(None, 30)] /\
    calls_login_first (OpGetItem (IdInt 42)) = false)).
Proof.
  apply (X22_transport_fault (OpGetItem (IdInt 42)) returning
           (at_seconds 60 [(None, 30)])).
  reflexivity.
Defined.


(** ** The first call of a new client *)

(** The confirmed login, with the world it ends in. *)
Lemma login_confirmed
      (c : TgtgClient) (w : world) (first : response) (dt0 : Z)
      (lb pid : value) (rs : list (response * Z)) (final : response) (dt : Z)
      (body a rt u : value) (rest : list (option response * Z)) :
  _already_logged c = false ->
  may_request_login c = true ->
  status_code first = HTTP_OK ->
  json first = Some lb ->
  getitem lb "polling_id" = Ok pid ->
  (List.length rs < 60)%nat ->
  all_accepted rs = true ->
  status_code final = HTTP_OK ->
  json final = Some body ->
  getitem body "access_token" = Ok a ->
  getitem body "refresh_token" = Ok rt ->
  startup_user_id body = Ok u ->
  script w = (Some first, dt0) :: answers rs ++ (Some final, dt) :: rest ->
  exists w',
    _login c w = (Ok tt, logged_in c a rt u (clock w'), w') /\
    script w' = rest /\
    count is_post (trace w') =
      (count is_post (trace w) + List.length rs + 2)%nat /\
    slept (trace w') = slept (trace w) + 10 * Z.of_nat (List.length rs).
Proof.
  intros Hl Hm H1 Hj1 Hp Hk Hacc H2 Hj2 Ha Hr Hu Hs.
  rewrite (login_reaches_polling c w first dt0 lb _ Hl Hm H1 Hj1 Hs).
  replace 60%nat with (List.length rs + S (59 - List.length rs))%nat by lia.
  match goal with
  | |- context [poll_loop _ _ _ ?w0] =>
      destruct (poll_loop_pending rs (S (59 - List.length rs)) lb pid c w0
                  ((Some final, dt) :: rest) Hp Hacc eq_refl)
        as (w1 & E & Hs1 & C1 & C2 & C3 & C4)
  end.
  rewrite E.
  rewrite (poll_loop_answered _ lb pid c w1 final dt body a rt rest
             Hp H2 Hj2 Ha Hr Hs1).
  unfold bind at 1. unfold lift at 1. rewrite Hu.
  unfold bind at 1. unfold assign at 1.
  unfold call_store_function, bind, self.
  cbn [store_function with_user_id with_last_time_token_refreshed
       with_refresh_token with_access_token trace] in *.
  rewrite !count_snoc in C2. rewrite slept_snoc in C4.
  cbn [is_post slept_of] in *.
  destruct (store_function c); unfold emit, ret;
    match goal with
    | |- exists w', (_, _, ?W) = _ /\ _ => exists W
    end;
    (split; [ reflexivity | ]); cbn [clock script trace];
    rewrite ?count_snoc, ?slept_snoc; cbn [is_post slept_of];
    repeat split; lia.
Qed.

(** X21: the first [get_items] of an unauthenticated client logs in
    (one login request, [k + 1] poll calls) and then makes the query with
    the headers and the user id of the client it has become: the new token
    as bearer, the new user id in the document; it returns the items. *)
Theorem X21_first_get_items_logs_in
        (q : get_items_args)
        (c : TgtgClient) (w : world) (first : response) (dt0 : Z)
        (lb pid : value) (rs : list (response * Z)) (final : response) (dt : Z)
        (body a rt u : value) (listing : response) (dt2 : Z)
        (body2 items : value) (rest : list (option response * Z)) :
  _already_logged c = false ->
  may_request_login c = true ->
  status_code first = HTTP_OK ->
  json first = Some lb ->
  getitem lb "polling_id" = Ok pid ->
  (List.length rs < 60)%nat ->
  all_accepted rs = true ->
  status_code final = HTTP_OK ->
  json final = Some body ->
  getitem body "access_token" = Ok a ->
  getitem body "refresh_token" = Ok rt ->
  startup_user_id body = Ok u ->
  status_code listing = HTTP_OK ->
  json listing = Some body2 ->
  getitem body2 "items" = Ok items ->
  script w =
    (Some first, dt0) :: answers rs ++ (Some final, dt) :: (Some listing, dt2) :: rest ->
  let '(res, c', w') := get_items q c w in
  res = Ok items /\
  (exists t, c' = logged_in c a rt u t) /\
  count is_post (trace w') = (count is_post (trace w) + List.length rs + 3)%nat /\
  script w' = rest /\
  (exists tr,
     trace w' =
     tr ++ [EvPost (items_url c) (_headers c') (items_query c' q)
              (proxies c) (timeout c)]) /\
  getitem (items_query c' q) "user_id" = Ok u /\
  header_get "authorization" (_headers c') =
    (if truthy a then Some (Bearer a) else None).
Proof.
  intros Hl Hm H1 Hj1 Hp Hk Hacc H2 Hj2 Ha Hr Hu H3 Hj3 Hi Hs.
  destruct (login_confirmed c w first dt0 lb pid rs final dt body a rt u
              ((Some listing, dt2) :: rest)
              Hl Hm H1 Hj1 Hp Hk Hacc H2 Hj2 Ha Hr Hu Hs)
    as (w1 & E & Hs1 & Hc & _).
  unfold get_items. unfold bind at 1. rewrite E.
  unfold bind at 1. unfold self at 1.
  unfold bind at 1. unfold requests_post. rewrite Hs1, H3.
  change (HTTP_OK =? HTTP_OK) with true. cbv iota.
  unfold bind, response_json, lift. rewrite Hj3. unfold ret. rewrite Hi.
  cbn [trace script].
  rewrite count_snoc. cbn [is_post].
  repeat split.
  - eexists. reflexivity.
  - lia.
  - eexists. reflexivity.
  - rewrite header_get_authorization. reflexivity.
Qed.

Lemma X21_first_get_items_logs_in_witness :
  let '(res, c', w') :=
    get_items get_items_defaults newcomer
      (at_seconds 100
         ((Some polling_answer, 0)
          :: answers (still_pending 2)
          ++ (Some (ok_response (session_body "A1" "R1" "U1")), 0)
          :: (Some (ok_response items_body), 0) :: [])) in
  res = Ok (VList [VDict [("item_id"%string, VStr "42")]]) /\
  (exists t, c' = logged_in newcomer (VStr "A1") (VStr "R1") (VStr "U1") t) /\
  count is_post (trace w') = 5%nat /\
  script w' = [] /\
  (exists tr,
     trace w' =
     tr ++ [EvPost (items_url newcomer) (_headers c')
              (items_query c' get_items_defaults) VNone VNone]) /\
  getitem (items_query c' get_items_defaults) "user_id" = Ok (VStr "U1") /\
  header_get "authorization" (_headers c') = Some (Bearer (VStr "A1")).
Proof.
  apply (X21_first_get_items_logs_in get_items_defaults newcomer
           (at_seconds 100
              ((Some polling_answer, 0)
               :: answers (still_pending 2)
               ++ (Some (ok_response (session_body "A1" "R1" "U1")), 0)
               :: (Some (ok_response items_body), 0) :: []))
           polling_answer 0 (VDict [("polling_id"%string, VStr "P1")]) (VStr "P1")
           (still_pending 2) (ok_response (session_body "A1" "R1" "U1")) 0
           (session_body "A1" "R1" "U1") (VStr "A1") (VStr "R1") (VStr "U1")
           (ok_response items_body) 0 items_body
           (VList [VDict [("item_id"%string, VStr "42")]]) []);
    try reflexivity.
  cbn. lia.
Defined.
